(** * AMC booking: the client contexts over the Data Store

    A shallow embedding of [src/contexts/BookingContext.tsx],
    [src/contexts/MachineContext.tsx] and [src/contexts/AuthContext.tsx].

    - JavaScript values the code computes with are modelled directly:
      strings as [string] (8-bit code units), numbers as [number]
      (an integer or [NaN]), arrays as [list].
    - Every function of a context reads and writes React state and talks to
      the Data Store; this is a state-and-exception monad [M] over a [World]
      that holds the store, the three contexts' state and the console.
    - The Data Store is reached only through requests ([Request]); a store is
      anything that answers them ([DataStore]).  What the contexts do is
      proved for every store; [RowStore] is one concrete store, a plain table
      store, on which the behaviour can be run.
    - An [async] function runs to completion in one step: interleavings of
      several pending calls are not modelled.
    - A function of a provider is created anew by every render and closes
      over the state of that render.  Where the source reads state through
      such a variable ([machines], [machineTypes], [user]) the function takes
      the captured value as an argument ([machines_at_render] and the like);
      where it passes an updater to a setter it works on the state at the
      time of the call. *)

From Stdlib Require Import ZArith List Bool Ascii String Lia.
From Stdlib Require Import Numbers.DecimalString Numbers.DecimalPos.
From Stdlib Require Import Sorting.Permutation.
Import ListNotations.

Open Scope string_scope.
Open Scope Z_scope.

(* ================================================================= *)
(** ** JavaScript numbers and strings *)

Module JS.

(** A JavaScript number, as far as the identifier code needs it: [NaN] or an
    integer.  Integers are exact below 2^53, which is where the theorems
    below use them (identifiers with at most 15 digits). *)
Inductive number : Type :=
| NaN : number
| Int : Z -> number.

(** [a > b]: every comparison with [NaN] is false. *)
Definition gt (a b : number) : bool :=
  match a, b with
  | Int x, Int y => y <? x
  | _, _ => false
  end.

(** [a + b] *)
Definition add (a b : number) : number :=
  match a, b with
  | Int x, Int y => Int (x + y)
  | _, _ => NaN
  end.

(** [String(n)] *)
Definition String_ (n : number) : string :=
  match n with
  | NaN => "NaN"
  | Int z => NilZero.string_of_int (Z.to_int z)
  end.

(** White space skipped by [parseInt]: TAB, LF, VT, FF, CR, SP, NBSP. *)
Definition is_white (c : ascii) : bool :=
  let n := nat_of_ascii c in
  ((9 <=? n)%nat && (n <=? 13)%nat) || (n =? 32)%nat || (n =? 160)%nat.

Fixpoint trim_start (s : string) : string :=
  match s with
  | String c s' => if is_white c then trim_start s' else s
  | EmptyString => s
  end.

(** The value of [c] as a digit in [radix], if it is one. *)
Definition digit_val (radix : Z) (c : ascii) : option Z :=
  let n := Z.of_nat (nat_of_ascii c) in
  let v := if (48 <=? n) && (n <=? 57) then Some (n - 48)
           else if (97 <=? n) && (n <=? 122) then Some (n - 87)
           else if (65 <=? n) && (n <=? 90) then Some (n - 55)
           else None in
  match v with
  | Some d => if d <? radix then Some d else None
  | None => None
  end.

(** The longest prefix of digits, read in [radix]; [acc] is [None] until a
    digit has been read. *)
Fixpoint parse_digits (radix : Z) (s : string) (acc : option Z) : option Z :=
  match s with
  | String c s' =>
      match digit_val radix c with
      | Some d =>
          parse_digits radix s'
            (Some (radix * (match acc with Some a => a | None => 0 end) + d))
      | None => acc
      end
  | EmptyString => acc
  end.

(** An optional sign in front. *)
Definition strip_sign (s : string) : Z * string :=
  match s with
  | String c r =>
      if (c =? "-")%char then (-1, r)
      else if (c =? "+")%char then (1, r)
      else (1, s)
  | EmptyString => (1, s)
  end.

(** An optional [0x] or [0X] in front selects radix 16. *)
Definition strip_radix (s : string) : Z * string :=
  match s with
  | String c0 (String c1 r) =>
      if (c0 =? "0")%char && ((c1 =? "x")%char || (c1 =? "X")%char)
      then (16, r)
      else (10, s)
  | _ => (10, s)
  end.

(** [parseInt(s)] with no radix argument: leading white space, an optional
    sign, an optional [0x] prefix, then the longest run of digits; [NaN]
    when there is no digit. *)
Definition parseInt (s : string) : number :=
  let '(sign, s2) := strip_sign (trim_start s) in
  let '(radix, s3) := strip_radix s2 in
  match parse_digits radix s3 None with
  | Some n => Int (sign * n)
  | None => NaN
  end.

(** [s.substring(start)] *)
Fixpoint substring (start : nat) (s : string) : string :=
  match start, s with
  | O, _ => s
  | S n, String _ s' => substring n s'
  | S _, EmptyString => EmptyString
  end.

(** [s.replace(c, '')] for a one-character pattern: the first occurrence
    of [c] is removed. *)
Fixpoint remove_first (c : ascii) (s : string) : string :=
  match s with
  | String a s' => if Ascii.eqb a c then s' else String a (remove_first c s')
  | EmptyString => EmptyString
  end.

Fixpoint repeat_char (c : ascii) (n : nat) : string :=
  match n with
  | O => EmptyString
  | S k => String c (repeat_char c k)
  end.

(** [s.padStart(width, c)] for a one-character filler: pads on the left up
    to [width], and never shortens [s]. *)
Definition padStart (width : nat) (c : ascii) (s : string) : string :=
  repeat_char c (width - String.length s) ++ s.

End JS.

(* ================================================================= *)
(** ** Records of [src/types] *)

(** Modelled from the spec: [src/types] is not part of the sources; the
    records carry the fields the contexts name ([id], [machine_type_id],
    [user_id], [machine_id], [created_at], [tokens_given], ...) and those of
    the spec's data model (section 3). *)

Inductive MachineStatus : Type :=
| available | in_use | maintenance | retired.

Module MachineType.
Record t : Type := mk
  { id : string;
    name : string;
    token_cost : Z }.
End MachineType.

Module Machine.
Record t : Type := mk
  { id : string;
    name : string;
    machine_type_id : string;
    status : MachineStatus;
    created_at : Z }.
End Machine.

(* ================================================================= *)
(** ** Identifier generation ([MachineContext.tsx]) *)

(** [generateMachineId], reading the [machines] state. *)
Definition generateMachineId (machines : list Machine.t) (machineTypeId : string)
  : string :=
  let machinesInType :=
    filter (fun m => Machine.machine_type_id m =? machineTypeId)%string machines in
  let maxMachineNum :=
    fold_left
      (fun max machine =>
         let machineNum := JS.parseInt (JS.substring 4 (Machine.id machine)) in
         if JS.gt machineNum max then machineNum else max)
      machinesInType (JS.Int 0) in
  machineTypeId ++ "M"
    ++ JS.padStart 2 "0" (JS.String_ (JS.add maxMachineNum (JS.Int 1))).

(** [generateMachineTypeId], reading the [machineTypes] state. *)
Definition generateMachineTypeId (machineTypes : list MachineType.t) : string :=
  let maxId :=
    fold_left
      (fun max type =>
         let idNum := JS.parseInt (JS.remove_first "C" (MachineType.id type)) in
         if JS.gt idNum max then idNum else max)
      machineTypes (JS.Int 0) in
  "C" ++ JS.padStart 2 "0" (JS.String_ (JS.add maxId (JS.Int 1))).

(* ================================================================= *)
(** ** Users, bookings and audit entries *)

Inductive Role : Type :=
| requester | facility_admin | institution_admin.

Inductive BookingMode : Type :=
| weekly_planning | same_week_exceptional | monthly_provisional.

Inductive BookingStatus : Type :=
| pending | approved | rejected | cancelled | completed.

Module User.
Record t : Type := mk
  { id : string;
    email : string;
    name : string;
    role : Role;
    tokens_given : Z;
    tokens_consumed : Z;
    tokens_remaining : Z;
    created_at : Z }.

(** [Omit<User, 'id' | 'created_at'>] *)
Record data : Type := mk_data
  { d_email : string;
    d_name : string;
    d_role : Role;
    d_tokens_given : Z;
    d_tokens_consumed : Z;
    d_tokens_remaining : Z }.

(** [Partial<User>]: a field is present or absent. *)
Record patch : Type := mk_patch
  { p_id : option string;
    p_email : option string;
    p_name : option string;
    p_role : option Role;
    p_tokens_given : option Z;
    p_tokens_consumed : option Z;
    p_tokens_remaining : option Z;
    p_created_at : option Z }.

Definition no_change : patch :=
  mk_patch None None None None None None None None.

Definition pick {A : Type} (new : option A) (old : A) : A :=
  match new with Some v => v | None => old end.

(** [{ ...user, ...updates }] *)
Definition merge (user : t) (updates : patch) : t :=
  mk (pick (p_id updates) (id user))
     (pick (p_email updates) (email user))
     (pick (p_name updates) (name user))
     (pick (p_role updates) (role user))
     (pick (p_tokens_given updates) (tokens_given user))
     (pick (p_tokens_consumed updates) (tokens_consumed user))
     (pick (p_tokens_remaining updates) (tokens_remaining user))
     (pick (p_created_at updates) (created_at user)).
End User.

Module Booking.
Record t : Type := mk
  { id : string;
    user_id : string;
    machine_id : string;
    booking_type : BookingMode;
    start_time : Z;
    end_time : Z;
    status : BookingStatus;
    tokens_consumed : Z;
    created_at : Z }.

(** [Omit<Booking, 'id' | 'created_at'>] *)
Record data : Type := mk_data
  { d_user_id : string;
    d_machine_id : string;
    d_booking_type : BookingMode;
    d_start_time : Z;
    d_end_time : Z;
    d_status : BookingStatus;
    d_tokens_consumed : Z }.

(** [Partial<Booking>] *)
Record patch : Type := mk_patch
  { p_id : option string;
    p_user_id : option string;
    p_machine_id : option string;
    p_booking_type : option BookingMode;
    p_start_time : option Z;
    p_end_time : option Z;
    p_status : option BookingStatus;
    p_tokens_consumed : option Z;
    p_created_at : option Z }.

Definition no_change : patch :=
  mk_patch None None None None None None None None None.

Definition set_status (s : BookingStatus) : patch :=
  mk_patch None None None None None None (Some s) None None.

(** [{ ...booking, ...updates }] *)
Definition merge (booking : t) (updates : patch) : t :=
  mk (User.pick (p_id updates) (id booking))
     (User.pick (p_user_id updates) (user_id booking))
     (User.pick (p_machine_id updates) (machine_id booking))
     (User.pick (p_booking_type updates) (booking_type booking))
     (User.pick (p_start_time updates) (start_time booking))
     (User.pick (p_end_time updates) (end_time booking))
     (User.pick (p_status updates) (status booking))
     (User.pick (p_tokens_consumed updates) (tokens_consumed booking))
     (User.pick (p_created_at updates) (created_at booking)).
End Booking.

Module AuditLog.
Record t : Type := mk
  { id : string;
    user_id : string;
    action : string;
    entity_id : string;
    timestamp : Z }.
End AuditLog.

(** [Omit<Machine, 'id' | 'created_at'>] and [Omit<MachineType, 'id'>] *)
Record MachineData : Type := mk_MachineData
  { md_name : string;
    md_machine_type_id : string;
    md_status : MachineStatus }.

Record MachineTypeData : Type := mk_MachineTypeData
  { mtd_name : string;
    mtd_token_cost : Z }.

(* ================================================================= *)
(** ** The Data Store interface *)

(** An error object: what the store reports in [error] or what a rejected
    promise carries.  The contexts never look inside it. *)
Record Error : Type := mk_Error { message : string }.

(** [{ data, error }] of a finished query. *)
Inductive Response (A : Type) : Type :=
| Data (data : A)
| Failed (error : Error).
Arguments Data {A} data.
Arguments Failed {A} error.

(** What [await] gets: the promise resolves to a response or rejects. *)
Inductive Reply (A : Type) : Type :=
| Resolved (r : Response A)
| Rejected (e : Error).
Arguments Resolved {A} r.
Arguments Rejected {A} e.

Inductive BookingFilter : Type :=
| AllBookings
| ByUser (userId : string)
| ByMachine (machineId : string).

(** The queries the contexts send, indexed by the type of [data]. *)
Inductive Request : Type -> Type :=
(* from('bookings').select('*')[.eq(...)].order('created_at', {ascending: false}) *)
| SelectBookings (by_ : BookingFilter) : Request (list Booking.t)
(* from('bookings').insert(bookingData).select().single() *)
| InsertBooking (bookingData : Booking.data) : Request Booking.t
(* from('bookings').update(updates).eq('id', id) *)
| UpdateBooking (updates : Booking.patch) (id : string) : Request unit
(* from('bookings').delete().eq('id', id) *)
| DeleteBooking (id : string) : Request unit
(* from('machine_types').select('*').order('name') *)
| SelectMachineTypes : Request (list MachineType.t)
(* from('machines').select('*').order('name') *)
| SelectMachines : Request (list Machine.t)
(* from('audit_logs').select('*').order('timestamp', {ascending: false}).limit(100) *)
| SelectAuditLogs : Request (list AuditLog.t)
(* from('machines').insert({...machineData, id: newId}).select().single() *)
| InsertMachine (machineData : MachineData) (newId : string) : Request Machine.t
(* from('machines').delete().eq('id', id) *)
| DeleteMachine (id : string) : Request unit
(* from('machine_types').insert({...machineTypeData, id: newId}).select().single() *)
| InsertMachineType (machineTypeData : MachineTypeData) (newId : string)
  : Request MachineType.t
(* from('machine_types').delete().eq('id', id) *)
| DeleteMachineType (id : string) : Request unit
(* auth.admin.createUser({email, ...}); [data] is [authData.user.id] *)
| AuthAdminCreateUser (email name : string) (role : Role) : Request string
(* from('profiles').insert({id, name, role, tokens_*}).select().single() *)
| InsertProfile (id name : string) (role : Role)
    (tokens_given tokens_consumed tokens_remaining : Z) : Request User.t
(* from('profiles').update(updates).eq('id', id) *)
| UpdateProfile (updates : User.patch) (id : string) : Request unit.

(** A Data Store answers requests, changing its own state as it does. *)
Class DataStore (DB : Type) : Type :=
  { exec : forall A : Type, Request A -> DB -> Reply A * DB }.
Arguments exec {DB _ A} _ _.

(* ================================================================= *)
(** ** The world: store, React state of the three providers, console *)

(** A Change Feed event ([postgres_changes] payload). *)
Inductive ChangeType : Type := INSERT | UPDATE | DELETE.

Record Payload (Row : Type) : Type := mk_Payload
  { eventType : ChangeType;
    new_row : option Row;
    old_row : option Row }.
Arguments mk_Payload {Row} _ _ _.

Inductive LogEntry : Type :=
| console_error_entry (label : string) (error : Error)
| console_log_entry (label : string) (payload : Payload Booking.t).

Record World (DB : Type) : Type := mk_World
  { store : DB;
    (* AuthProvider *)
    user : option User.t;
    (* BookingProvider *)
    bookings : list Booking.t;
    bookings_isLoading : bool;
    (* MachineProvider *)
    machines : list Machine.t;
    machineTypes : list MachineType.t;
    auditLogs : list AuditLog.t;
    machines_isLoading : bool;
    (* console.log / console.error, oldest first *)
    console : list LogEntry }.
Arguments mk_World {DB} _ _ _ _ _ _ _ _ _.
Arguments store {DB} _.
Arguments user {DB} _.
Arguments bookings {DB} _.
Arguments bookings_isLoading {DB} _.
Arguments machines {DB} _.
Arguments machineTypes {DB} _.
Arguments auditLogs {DB} _.
Arguments machines_isLoading {DB} _.
Arguments console {DB} _.

(** The result of running a function body: it returns or it throws. *)
Inductive Outcome (A : Type) : Type :=
| Return (a : A)
| Throw (e : Error).
Arguments Return {A} a.
Arguments Throw {A} e.

Definition M (DB A : Type) : Type := World DB -> Outcome A * World DB.

Section Monad.
Context {DB : Type}.

Definition ret {A : Type} (a : A) : M DB A := fun w => (Return a, w).

Definition throw {A : Type} (e : Error) : M DB A := fun w => (Throw e, w).

Definition bind {A B : Type} (m : M DB A) (k : A -> M DB B) : M DB B :=
  fun w =>
    match m w with
    | (Return a, w') => k a w'
    | (Throw e, w') => (Throw e, w')
    end.

(** [try { body } catch (error) { handler }] *)
Definition try_catch {A : Type} (body : M DB A) (handler : Error -> M DB A)
  : M DB A :=
  fun w =>
    match body w with
    | (Return a, w') => (Return a, w')
    | (Throw e, w') => handler e w'
    end.

(** [try { body } finally { final }]: [final] runs on both exits and the
    outcome of [body] stands (no [final] in the sources returns or throws
    by itself; if it threw, that would stand instead). *)
Definition try_finally {A : Type} (body : M DB A) (final : M DB unit)
  : M DB A :=
  fun w =>
    match body w with
    | (o, w') =>
        match final w' with
        | (Return _, w'') => (o, w'')
        | (Throw e, w'') => (Throw e, w'')
        end
    end.

(** Functional updates of one field of the world. *)
Definition with_store (db : DB) (w : World DB) : World DB :=
  mk_World db (user w) (bookings w) (bookings_isLoading w) (machines w)
    (machineTypes w) (auditLogs w) (machines_isLoading w) (console w).

Definition with_user (u : option User.t) (w : World DB) : World DB :=
  mk_World (store w) u (bookings w) (bookings_isLoading w) (machines w)
    (machineTypes w) (auditLogs w) (machines_isLoading w) (console w).

Definition with_bookings (l : list Booking.t) (w : World DB) : World DB :=
  mk_World (store w) (user w) l (bookings_isLoading w) (machines w)
    (machineTypes w) (auditLogs w) (machines_isLoading w) (console w).

Definition with_bookings_isLoading (b : bool) (w : World DB) : World DB :=
  mk_World (store w) (user w) (bookings w) b (machines w)
    (machineTypes w) (auditLogs w) (machines_isLoading w) (console w).

Definition with_machines (l : list Machine.t) (w : World DB) : World DB :=
  mk_World (store w) (user w) (bookings w) (bookings_isLoading w) l
    (machineTypes w) (auditLogs w) (machines_isLoading w) (console w).

Definition with_machineTypes (l : list MachineType.t) (w : World DB) : World DB :=
  mk_World (store w) (user w) (bookings w) (bookings_isLoading w) (machines w)
    l (auditLogs w) (machines_isLoading w) (console w).

Definition with_auditLogs (l : list AuditLog.t) (w : World DB) : World DB :=
  mk_World (store w) (user w) (bookings w) (bookings_isLoading w) (machines w)
    (machineTypes w) l (machines_isLoading w) (console w).

Definition with_machines_isLoading (b : bool) (w : World DB) : World DB :=
  mk_World (store w) (user w) (bookings w) (bookings_isLoading w) (machines w)
    (machineTypes w) (auditLogs w) b (console w).

Definition with_console (c : list LogEntry) (w : World DB) : World DB :=
  mk_World (store w) (user w) (bookings w) (bookings_isLoading w) (machines w)
    (machineTypes w) (auditLogs w) (machines_isLoading w) c.

(** State reads, and the [useState] setters ([setBookings] and the like
    take an updater of the previous value). *)
Definition get {A : Type} (f : World DB -> A) : M DB A :=
  fun w => (Return (f w), w).

Definition modify (f : World DB -> World DB) : M DB unit :=
  fun w => (Return tt, f w).

Definition setUser (u : option User.t) : M DB unit :=
  modify (with_user u).

Definition setBookings (f : list Booking.t -> list Booking.t) : M DB unit :=
  modify (fun w => with_bookings (f (bookings w)) w).

Definition setBookingsLoading (b : bool) : M DB unit :=
  modify (with_bookings_isLoading b).

Definition setMachines (f : list Machine.t -> list Machine.t) : M DB unit :=
  modify (fun w => with_machines (f (machines w)) w).

Definition setMachineTypes (f : list MachineType.t -> list MachineType.t)
  : M DB unit :=
  modify (fun w => with_machineTypes (f (machineTypes w)) w).

Definition setAuditLogs (f : list AuditLog.t -> list AuditLog.t) : M DB unit :=
  modify (fun w => with_auditLogs (f (auditLogs w)) w).

Definition setMachinesLoading (b : bool) : M DB unit :=
  modify (with_machines_isLoading b).

(** One more line on the console. *)
Definition logged (entry : LogEntry) (w : World DB) : World DB :=
  with_console (console w ++ [entry])%list w.

Definition console_error (label : string) (error : Error) : M DB unit :=
  modify (logged (console_error_entry label error)).

Definition console_log (label : string) (payload : Payload Booking.t)
  : M DB unit :=
  modify (logged (console_log_entry label payload)).

(** [await supabase...]: the store answers; a rejected promise throws. *)
Definition await `{DataStore DB} {A : Type} (q : Request A)
  : M DB (Response A) :=
  fun w =>
    match exec q (store w) with
    | (Resolved r, db') => (Return r, with_store db' w)
    | (Rejected e, db') => (Throw e, with_store db' w)
    end.
End Monad.

Declare Scope js_scope.
Delimit Scope js_scope with js.
Notation "x <- m ;; k" := (bind m (fun x => k))
  (at level 61, m at next level, right associativity) : js_scope.
Notation "m ;; k" := (bind m (fun _ => k))
  (at level 61, right associativity) : js_scope.
Open Scope js_scope.

(* ================================================================= *)
(** ** [BookingContext.tsx] *)

Section BookingProvider.
Context {DB : Type} `{DataStore DB}.

Definition loadBookings : M DB unit :=
  try_finally
    (try_catch
       (setBookingsLoading true ;;
        r <- await (SelectBookings AllBookings) ;;
        match r with
        | Failed error =>
            console_error "Error loading bookings:" error (* return *)
        | Data data => setBookings (fun _ => data)
        end)
       (fun error => console_error "Error loading bookings:" error))
    (setBookingsLoading false).

(** The callback of the [bookings_changes] subscription. *)
Definition onBookingsChange (payload : Payload Booking.t) : M DB unit :=
  console_log "Booking change received:" payload ;;
  loadBookings.

Definition addBooking (bookingData : Booking.data) : M DB Booking.t :=
  try_catch
    (r <- await (InsertBooking bookingData) ;;
     match r with
     | Failed error => throw error
     | Data newBooking =>
         setBookings (fun prev => newBooking :: prev) ;;
         ret newBooking
     end)
    (fun error => console_error "Error adding booking:" error ;; throw error).

Definition updateBooking (id : string) (updates : Booking.patch) : M DB unit :=
  try_catch
    (r <- await (UpdateBooking updates id) ;;
     match r with
     | Failed error => throw error
     | Data _ =>
         setBookings
           (fun prev =>
              map (fun booking =>
                     if (Booking.id booking =? id)%string
                     then Booking.merge booking updates
                     else booking)
                  prev)
     end)
    (fun error => console_error "Error updating booking:" error ;; throw error).

Definition deleteBooking (id : string) : M DB unit :=
  try_catch
    (r <- await (DeleteBooking id) ;;
     match r with
     | Failed error => throw error
     | Data _ =>
         setBookings
           (fun prev =>
              filter (fun booking => negb (Booking.id booking =? id)%string) prev)
     end)
    (fun error => console_error "Error deleting booking:" error ;; throw error).

Definition getBookingsByUser (userId : string) : M DB (list Booking.t) :=
  try_catch
    (r <- await (SelectBookings (ByUser userId)) ;;
     match r with
     | Failed error => throw error
     | Data data => ret data
     end)
    (fun error =>
       console_error "Error fetching user bookings:" error ;; ret []).

Definition getBookingsByMachine (machineId : string) : M DB (list Booking.t) :=
  try_catch
    (r <- await (SelectBookings (ByMachine machineId)) ;;
     match r with
     | Failed error => throw error
     | Data data => ret data
     end)
    (fun error =>
       console_error "Error fetching machine bookings:" error ;; ret []).

Definition refreshBookings : M DB unit := loadBookings.
End BookingProvider.

(* ================================================================= *)
(** ** [MachineContext.tsx] *)

Section MachineProvider.
Context {DB : Type} `{DataStore DB}.

Definition loadData : M DB unit :=
  try_finally
    (try_catch
       (setMachinesLoading true ;;
        types <- await SelectMachineTypes ;;
        match types with
        | Failed typesError =>
            console_error "Error loading machine types:" typesError
        | Data typesData => setMachineTypes (fun _ => typesData)
        end ;;
        ms <- await SelectMachines ;;
        match ms with
        | Failed machinesError =>
            console_error "Error loading machines:" machinesError
        | Data machinesData => setMachines (fun _ => machinesData)
        end ;;
        audit <- await SelectAuditLogs ;;
        match audit with
        | Failed auditError =>
            console_error "Error loading audit logs:" auditError
        | Data auditData => setAuditLogs (fun _ => auditData)
        end)
       (fun error => console_error "Error loading data:" error))
    (setMachinesLoading false).

(** The callbacks of the [machines_changes], [machine_types_changes] and
    [audit_logs_changes] subscriptions: each is [() => loadData()]. *)
Definition onMachinesChange (payload : Payload Machine.t) : M DB unit :=
  loadData.

Definition onMachineTypesChange (payload : Payload MachineType.t) : M DB unit :=
  loadData.

Definition onAuditLogsChange (payload : Payload AuditLog.t) : M DB unit :=
  loadData.

(** [addMachine] calls [generateMachineId], which reads the [machines] of the
    render that created the function: [machines_at_render].  For the function
    of the latest render that is the current state, [machines w]; a function
    kept from an earlier render still sees the earlier list. *)
Definition addMachine (machines_at_render : list Machine.t)
  (machineData : MachineData) : M DB Machine.t :=
  try_catch
    (let newId :=
       generateMachineId machines_at_render (md_machine_type_id machineData) in
     r <- await (InsertMachine machineData newId) ;;
     match r with
     | Failed error => throw error
     | Data newMachine =>
         setMachines (fun prev => (prev ++ [newMachine])%list) ;;
         ret newMachine
     end)
    (fun error => console_error "Error adding machine:" error ;; throw error).

Definition deleteMachine (id : string) : M DB unit :=
  try_catch
    (r <- await (DeleteMachine id) ;;
     match r with
     | Failed error => throw error
     | Data _ =>
         setMachines
           (fun prev =>
              filter (fun machine => negb (Machine.id machine =? id)%string) prev)
     end)
    (fun error => console_error "Error deleting machine:" error ;; throw error).

(** Likewise [generateMachineTypeId] reads the [machineTypes] of the render
    that created the function. *)
Definition addMachineType (machineTypes_at_render : list MachineType.t)
  (machineTypeData : MachineTypeData) : M DB MachineType.t :=
  try_catch
    (let newId := generateMachineTypeId machineTypes_at_render in
     r <- await (InsertMachineType machineTypeData newId) ;;
     match r with
     | Failed error => throw error
     | Data newMachineType =>
         setMachineTypes (fun prev => (prev ++ [newMachineType])%list) ;;
         ret newMachineType
     end)
    (fun error =>
       console_error "Error adding machine type:" error ;; throw error).

Definition deleteMachineType (id : string) : M DB unit :=
  try_catch
    (r <- await (DeleteMachineType id) ;;
     match r with
     | Failed error => throw error
     | Data _ =>
         setMachineTypes
           (fun prev =>
              filter (fun type => negb (MachineType.id type =? id)%string) prev)
     end)
    (fun error =>
       console_error "Error deleting machine type:" error ;; throw error).

Definition refreshData : M DB unit := loadData.
End MachineProvider.

(* ================================================================= *)
(** ** [AuthContext.tsx] *)

Section AuthProvider.
Context {DB : Type} `{DataStore DB}.

Definition addUser (userData : User.data) : M DB User.t :=
  try_catch
    (auth <- await (AuthAdminCreateUser (User.d_email userData)
                      (User.d_name userData) (User.d_role userData)) ;;
     match auth with
     | Failed authError => throw authError
     | Data authUserId =>
         profile <- await (InsertProfile authUserId
                             (User.d_name userData) (User.d_role userData)
                             (User.d_tokens_given userData)
                             (User.d_tokens_consumed userData)
                             (User.d_tokens_remaining userData)) ;;
         match profile with
         | Failed profileError => throw profileError
         | Data profileData => ret profileData
         end
     end)
    (fun error => console_error "Error adding user:" error ;; throw error).

(** [updateUser] tests and merges the [user] of the render that created
    the function, [user_at_render], not the state at the time of the call:
    [setUser] is given a value here, not an updater. *)
Definition updateUser (user_at_render : option User.t) (id : string)
  (updates : User.patch) : M DB unit :=
  try_catch
    (r <- await (UpdateProfile updates id) ;;
     match r with
     | Failed error => throw error
     | Data _ =>
         match user_at_render with
         | Some user =>
             if (User.id user =? id)%string
             then setUser (Some (User.merge user updates))
             else ret tt
         | None => ret tt
         end
     end)
    (fun error => console_error "Error updating user:" error ;; throw error).
End AuthProvider.

(* ================================================================= *)
(** ** A concrete Data Store *)

(** Modelled from the spec: the Data Store itself (the Supabase project, its
    schema and [src/lib/supabase]) is outside the sources.  Section 6 of the
    spec describes it as row-oriented reads ([select] with filter, order and
    limit) and writes ([insert], [update], [delete]) over record collections,
    and that is all this store does: it keeps what it is sent and has no
    constraint, trigger or policy of its own (so whatever a database trigger
    may do about tokens is not in it; what is proved for every store does
    not depend on this one).  A request can also fail
    (the store is unreachable, a policy refuses it): [faults] scripts, call by
    call, which requests do. *)

Inductive Fault : Type :=
| Healthy                 (* the request is carried out *)
| Refuse (error : Error)  (* the response carries [error] *)
| Crash (e : Error).      (* the promise rejects *)

Fixpoint insert_by {A : Type} (le : A -> A -> bool) (x : A) (l : list A) : list A :=
  match l with
  | [] => [x]
  | y :: l' => if le x y then x :: l else y :: insert_by le x l'
  end.

Definition sort_by {A : Type} (le : A -> A -> bool) (l : list A) : list A :=
  fold_right (insert_by le) [] l.

Module RowStore.
Record t : Type := mk
  { profiles : list User.t;
    machine_types : list MachineType.t;
    machines : list Machine.t;
    bookings : list Booking.t;
    audit_logs : list AuditLog.t;
    (* source of generated identifiers and of [created_at] *)
    next : Z;
    faults : list Fault }.

Definition with_faults (f : list Fault) (s : t) : t :=
  mk (profiles s) (machine_types s) (machines s) (bookings s) (audit_logs s)
     (next s) f.

Definition matches (by_ : BookingFilter) (b : Booking.t) : bool :=
  match by_ with
  | AllBookings => true
  | ByUser userId => (Booking.user_id b =? userId)%string
  | ByMachine machineId => (Booking.machine_id b =? machineId)%string
  end.

Definition fresh (prefix : string) (s : t) : string :=
  prefix ++ JS.String_ (JS.Int (next s)).

(** What a request does when it is carried out. *)
Definition perform {A : Type} (q : Request A) (s : t) : A * t :=
  match q in Request A return A * t with
  | SelectBookings by_ =>
      (sort_by (fun a b => Booking.created_at b <=? Booking.created_at a)
         (filter (matches by_) (bookings s)), s)
  | InsertBooking d =>
      let row :=
        Booking.mk (fresh "B" s) (Booking.d_user_id d) (Booking.d_machine_id d)
          (Booking.d_booking_type d) (Booking.d_start_time d)
          (Booking.d_end_time d) (Booking.d_status d)
          (Booking.d_tokens_consumed d) (next s) in
      (row, mk (profiles s) (machine_types s) (machines s)
              (bookings s ++ [row])%list (audit_logs s) (next s + 1) (faults s))
  | UpdateBooking updates id =>
      (tt, mk (profiles s) (machine_types s) (machines s)
             (map (fun b => if (Booking.id b =? id)%string
                            then Booking.merge b updates else b) (bookings s))
             (audit_logs s) (next s) (faults s))
  | DeleteBooking id =>
      (tt, mk (profiles s) (machine_types s) (machines s)
             (filter (fun b => negb (Booking.id b =? id)%string) (bookings s))
             (audit_logs s) (next s) (faults s))
  | SelectMachineTypes =>
      (sort_by (fun a b => String.leb (MachineType.name a) (MachineType.name b))
         (machine_types s), s)
  | SelectMachines =>
      (sort_by (fun a b => String.leb (Machine.name a) (Machine.name b))
         (machines s), s)
  | SelectAuditLogs =>
      (firstn 100
         (sort_by (fun a b => AuditLog.timestamp b <=? AuditLog.timestamp a)
            (audit_logs s)), s)
  | InsertMachine d newId =>
      let row :=
        Machine.mk newId (md_name d) (md_machine_type_id d) (md_status d)
          (next s) in
      (row, mk (profiles s) (machine_types s) (machines s ++ [row])%list
              (bookings s) (audit_logs s) (next s + 1) (faults s))
  | DeleteMachine id =>
      (tt, mk (profiles s) (machine_types s)
             (filter (fun m => negb (Machine.id m =? id)%string) (machines s))
             (bookings s) (audit_logs s) (next s) (faults s))
  | InsertMachineType d newId =>
      let row := MachineType.mk newId (mtd_name d) (mtd_token_cost d) in
      (row, mk (profiles s) (machine_types s ++ [row])%list (machines s)
              (bookings s) (audit_logs s) (next s) (faults s))
  | DeleteMachineType id =>
      (tt, mk (profiles s)
             (filter (fun c => negb (MachineType.id c =? id)%string)
                (machine_types s))
             (machines s) (bookings s) (audit_logs s) (next s) (faults s))
  | AuthAdminCreateUser _ _ _ =>
      (fresh "U" s,
       mk (profiles s) (machine_types s) (machines s) (bookings s)
          (audit_logs s) (next s + 1) (faults s))
  | InsertProfile id name role given consumed remaining =>
      let row := User.mk id "" name role given consumed remaining (next s) in
      (row, mk (profiles s ++ [row])%list (machine_types s) (machines s)
              (bookings s) (audit_logs s) (next s + 1) (faults s))
  | UpdateProfile updates id =>
      (tt, mk (map (fun u => if (User.id u =? id)%string
                             then User.merge u updates else u) (profiles s))
             (machine_types s) (machines s) (bookings s) (audit_logs s)
             (next s) (faults s))
  end.

(** The next entry of the script decides whether the request is carried
    out; with the script used up, every request is. *)
Definition run {A : Type} (q : Request A) (s : t) : Reply A * t :=
  match faults s with
  | Refuse error :: rest => (Resolved (Failed error), with_faults rest s)
  | Crash e :: rest => (Rejected e, with_faults rest s)
  | Healthy :: rest =>
      let '(a, s') := perform q (with_faults rest s) in
      (Resolved (Data a), s')
  | [] =>
      let '(a, s') := perform q s in
      (Resolved (Data a), s')
  end.
End RowStore.

#[export] Instance RowStore_DataStore : DataStore RowStore.t :=
  {| exec := @RowStore.run |}.

(** A world with nothing loaded yet, as the providers start. *)
Definition initial_world {DB : Type} (db : DB) : World DB :=
  mk_World db None [] true [] [] [] true [].

(* ================================================================= *)
(** ** The identifier rule in the spec's words (section 4.1) *)

Definition is_digit (c : ascii) : bool :=
  let n := nat_of_ascii c in ((48 <=? n)%nat && (n <=? 57)%nat).

Fixpoint all_digits (s : string) : bool :=
  match s with
  | String c s' => is_digit c && all_digits s'
  | EmptyString => true
  end.

(** The number a string of decimal digits writes, most significant first. *)
Fixpoint decimal_value (s : string) (acc : Z) : Z :=
  match s with
  | String c s' => decimal_value s' (10 * acc + (Z.of_nat (nat_of_ascii c) - 48))
  | EmptyString => acc
  end.

Fixpoint strip_prefix (p s : string) : option string :=
  match p, s with
  | EmptyString, _ => Some s
  | String a p', String b s' => if (a =? b)%char then strip_prefix p' s' else None
  | String _ _, EmptyString => None
  end.

(** The trailing numeric suffix of a machine identifier of category
    [categoryId]: the digits after [categoryId ++ "M"]; none for an
    identifier of any other shape. *)
Definition numeric_suffix (categoryId id : string) : option Z :=
  match strip_prefix (categoryId ++ "M") id with
  | Some d =>
      match d with
      | EmptyString => None
      | String _ _ => if all_digits d then Some (decimal_value d 0) else None
      end
  | None => None
  end.

(** The maximum suffix among the machines of the category, 0 for none. *)
Definition max_suffix (categoryId : string) (existing : list Machine.t) : Z :=
  fold_right
    (fun m acc =>
       match numeric_suffix categoryId (Machine.id m) with
       | Some n => Z.max n acc
       | None => acc
       end)
    0
    (filter (fun m => Machine.machine_type_id m =? categoryId)%string existing).

Definition leading_zero (d : string) : bool :=
  match d with
  | String c _ => (c =? "0")%char
  | EmptyString => false
  end.

(** [d] writes [n] in decimal, zero-padded to two digits: two digits, or
    more than two with no zero in front. *)
Definition two_digit_padded (n : Z) (d : string) : Prop :=
  all_digits d = true
  /\ decimal_value d 0 = n
  /\ (String.length d = 2%nat
      \/ ((2 < String.length d)%nat /\ leading_zero d = false)).

(** [id] is the next machine identifier of the category: the category
    identifier, [M], and the maximum suffix plus one, zero-padded to two
    digits. *)
Definition is_next_machine_id (categoryId : string) (existing : list Machine.t)
  (id : string) : Prop :=
  exists d : string,
    id = categoryId ++ "M" ++ d
    /\ two_digit_padded (max_suffix categoryId existing + 1) d.

(** An identifier [categoryId ++ "M" ++ digits], with at most 15 digits. *)
Definition well_formed_id (categoryId id : string) : Prop :=
  exists d : string,
    id = categoryId ++ "M" ++ d /\ d <> EmptyString /\ all_digits d = true
    /\ (String.length d <= 15)%nat.

(** An identifier with no number after its fourth character. *)
Definition non_numeric_id (id : string) : Prop :=
  JS.parseInt (JS.substring 4 id) = JS.NaN.

Definition machine_of (id categoryId : string) : Machine.t :=
  Machine.mk id id categoryId available 0.

(** The machines [C01M01] ... [C01M99] of category [C01]. *)
Definition ninety_nine_machines : list Machine.t :=
  map (fun n =>
         machine_of ("C01M" ++ JS.padStart 2 "0" (JS.String_ (JS.Int (Z.of_nat n))))
           "C01")
      (seq 1 99).

(* ================================================================= *)
(** ** Vocabulary of the booking rules (spec sections 3 and 4) *)

(** Half-open intervals [[s1, e1)] and [[s2, e2)] overlap when they share a
    point; touching intervals do not. *)
Definition overlaps (s1 e1 s2 e2 : Z) : bool := (s1 <? e2) && (s2 <? e1).

(** A booking holds its slot while it is pending or approved. *)
Definition active (s : BookingStatus) : bool :=
  match s with
  | pending | approved => true
  | rejected | cancelled | completed => false
  end.

Definition terminal (s : BookingStatus) : bool :=
  match s with
  | rejected | cancelled | completed => true
  | pending | approved => false
  end.

(** The state machine of section 4.4. *)
Definition legal_transition (from to : BookingStatus) : bool :=
  match from, to with
  | pending, (approved | rejected | cancelled) => true
  | approved, (cancelled | completed) => true
  | _, _ => false
  end.

(** A proposal conflicts with an existing booking of the same machine that
    is active and whose interval overlaps the proposed one. *)
Definition conflicts_with (proposal : Booking.data) (existing : Booking.t) : bool :=
  (Booking.machine_id existing =? Booking.d_machine_id proposal)%string
  && active (Booking.status existing)
  && overlaps (Booking.d_start_time proposal) (Booking.d_end_time proposal)
       (Booking.start_time existing) (Booking.end_time existing).




(** The error a reply carries, if the request failed either way. *)
Definition failure {A : Type} (r : Reply A) : option Error :=
  match r with
  | Resolved (Failed error) => Some error
  | Rejected e => Some e
  | Resolved (Data _) => None
  end.

(* ================================================================= *)
(** ** The scenario of spec section 8 as a world *)

(** A requester who was given 10 tokens and holds one pending booking of 4
    tokens on [C01M01], Monday 9:00 to 11:00 (hours of the week). *)
Definition alice : User.t :=
  User.mk "u1" "alice@example.org" "Alice" requester 10 4 6 0.

Definition first_booking : Booking.t :=
  Booking.mk "B1" "u1" "C01M01" weekly_planning 9 11 pending 4 1.

Definition printers : MachineType.t := MachineType.mk "C01" "3D printer" 2.

(** The store holding one user and one booking, and a client that has
    loaded them. *)
Definition store_of (u : User.t) (b : Booking.t) (script : list Fault)
  : RowStore.t :=
  RowStore.mk [u] [printers] [machine_of "C01M01" "C01"] [b] [] 2 script.

Definition world_of (u : User.t) (b : Booking.t) (script : list Fault)
  : World RowStore.t :=
  mk_World (store_of u b script) (Some u) [b] false
    [machine_of "C01M01" "C01"] [printers] [] false [].

Definition scenario_world (script : list Fault) : World RowStore.t :=
  world_of alice first_booking script.

(** The same, after an administrator rejected the booking. *)
Definition rejected_booking : Booking.t :=
  Booking.mk "B1" "u1" "C01M01" weekly_planning 9 11 rejected 4 1.

Definition rejected_world : World RowStore.t :=
  world_of alice rejected_booking [].


(** The same grant with the other two token fields written out. *)
Definition balanced_grant_to_20 : User.patch :=
  User.mk_patch None None None None (Some 20) (Some 4) (Some 16) None.

Definition newcomer : User.data :=
  User.mk_data "bob@example.org" "Bob" requester 5 0 5.

(** Monday 10:00 to 12:00 on the same machine. *)
Definition second_request : Booking.data :=
  Booking.mk_data "u1" "C01M01" weekly_planning 10 12 pending 4.

Definition second_booking : Booking.t :=
  Booking.mk "B2" "u1" "C01M01" weekly_planning 10 12 pending 4 2.

(** A request that costs more than the 6 tokens left. *)
Definition costly_request : Booking.data :=
  Booking.mk_data "u1" "C01M01" weekly_planning 20 30 pending 8.

Definition outage : Error := mk_Error "connection lost".

(* ================================================================= *)
(** ** The other functions of the contexts *)

(** [Partial<Machine>], [Partial<MachineType>] and
    [Omit<AuditLog, 'id' | 'timestamp'>] *)
Record MachinePatch : Type := mk_MachinePatch
  { mp_id : option string;
    mp_name : option string;
    mp_machine_type_id : option string;
    mp_status : option MachineStatus;
    mp_created_at : option Z }.

Record MachineTypePatch : Type := mk_MachineTypePatch
  { mtp_id : option string;
    mtp_name : option string;
    mtp_token_cost : option Z }.

Record AuditLogData : Type := mk_AuditLogData
  { ald_user_id : string;
    ald_action : string;
    ald_entity_id : string }.

(** [{ ...machine, ...updates }] and [{ ...type, ...updates }] *)
Definition merge_machine (machine : Machine.t) (updates : MachinePatch)
  : Machine.t :=
  Machine.mk (User.pick (mp_id updates) (Machine.id machine))
    (User.pick (mp_name updates) (Machine.name machine))
    (User.pick (mp_machine_type_id updates) (Machine.machine_type_id machine))
    (User.pick (mp_status updates) (Machine.status machine))
    (User.pick (mp_created_at updates) (Machine.created_at machine)).

Definition merge_machineType (type : MachineType.t) (updates : MachineTypePatch)
  : MachineType.t :=
  MachineType.mk (User.pick (mtp_id updates) (MachineType.id type))
    (User.pick (mtp_name updates) (MachineType.name type))
    (User.pick (mtp_token_cost updates) (MachineType.token_cost type)).

(** The queries of the functions below, indexed by the type of [data]. *)
Inductive FurtherRequest : Type -> Type :=
(* from('machines').update(updates).eq('id', id) *)
| UpdateMachine (updates : MachinePatch) (id : string) : FurtherRequest unit
(* from('machine_types').update(updates).eq('id', id) *)
| UpdateMachineType (updates : MachineTypePatch) (id : string)
  : FurtherRequest unit
(* from('audit_logs').insert(logData) *)
| InsertAuditLog (logData : AuditLogData) : FurtherRequest unit
(* from('profiles').select('*').eq('id', userId).single() *)
| SelectProfile (userId : string) : FurtherRequest User.t
(* from('profiles').select('*').order('created_at', {ascending: false}) *)
| SelectProfiles : FurtherRequest (list User.t)
(* from('profiles').select('id').eq('email', email).single(); [data] is
   [users.id] *)
| SelectProfileIdByEmail (email : string) : FurtherRequest string
(* auth.signInWithPassword({email, password}); [data] is [data.user?.id] *)
| SignInWithPassword (email password : string) : FurtherRequest (option string)
(* auth.admin.deleteUser(id) *)
| AuthAdminDeleteUser (id : string) : FurtherRequest unit
(* auth.admin.updateUserById(id, {password}) *)
| AuthAdminUpdateUserById (id password : string) : FurtherRequest unit.

Class FurtherStore (DB : Type) : Type :=
  { exec_further : forall A : Type, FurtherRequest A -> DB -> Reply A * DB }.
Arguments exec_further {DB _ A} _ _.

Definition await_further {DB : Type} `{FurtherStore DB} {A : Type}
  (q : FurtherRequest A) : M DB (Response A) :=
  fun w =>
    match exec_further q (store w) with
    | (Resolved r, db') => (Return r, with_store db' w)
    | (Rejected e, db') => (Throw e, with_store db' w)
    end.

Section MachineProviderRest.
Context {DB : Type} `{DataStore DB} `{FurtherStore DB}.

Definition updateMachine (id : string) (updates : MachinePatch) : M DB unit :=
  try_catch
    (r <- await_further (UpdateMachine updates id) ;;
     match r with
     | Failed error => throw error
     | Data _ =>
         setMachines
           (fun prev =>
              map (fun machine =>
                     if (Machine.id machine =? id)%string
                     then merge_machine machine updates
                     else machine)
                  prev)
     end)
    (fun error => console_error "Error updating machine:" error ;; throw error).

Definition updateMachineType (id : string) (updates : MachineTypePatch)
  : M DB unit :=
  try_catch
    (r <- await_further (UpdateMachineType updates id) ;;
     match r with
     | Failed error => throw error
     | Data _ =>
         setMachineTypes
           (fun prev =>
              map (fun type =>
                     if (MachineType.id type =? id)%string
                     then merge_machineType type updates
                     else type)
                  prev)
     end)
    (fun error =>
       console_error "Error updating machine type:" error ;; throw error).

(** [getMachineById], reading the [machines] state. *)
Definition getMachineById (machines : list Machine.t) (id : string)
  : option Machine.t :=
  find (fun machine => (Machine.id machine =? id)%string) machines.

Definition addAuditLog (logData : AuditLogData) : M DB unit :=
  try_catch
    (r <- await_further (InsertAuditLog logData) ;;
     match r with
     | Failed error => throw error
     | Data _ => ret tt
     end)
    (fun error => console_error "Error adding audit log:" error ;; throw error).
End MachineProviderRest.

Section AuthProviderRest.
Context {DB : Type} `{FurtherStore DB}.

Definition loadUserProfile (userId : string) : M DB (option User.t) :=
  try_catch
    (r <- await_further (SelectProfile userId) ;;
     match r with
     | Failed error =>
         console_error "Error loading user profile:" error ;; ret None
     | Data data => ret (Some data)
     end)
    (fun error => console_error "Error loading user profile:" error ;; ret None).

Definition login (email password : string) : M DB bool :=
  try_catch
    (r <- await_further (SignInWithPassword email password) ;;
     match r with
     | Failed error => console_error "Login error:" error ;; ret false
     | Data (Some userId) =>
         profile <- loadUserProfile userId ;;
         setUser profile ;;
         ret true
     | Data None => ret false
     end)
    (fun error => console_error "Login error:" error ;; ret false).

Definition deleteUser (id : string) : M DB unit :=
  try_catch
    (r <- await_further (AuthAdminDeleteUser id) ;;
     match r with
     | Failed error => throw error
     | Data _ => ret tt
     end)
    (fun error => console_error "Error deleting user:" error ;; throw error).

Definition getAllUsers : M DB (list User.t) :=
  try_catch
    (r <- await_further SelectProfiles ;;
     match r with
     | Failed error => throw error
     | Data data => ret data
     end)
    (fun error => console_error "Error fetching users:" error ;; ret []).

(** Only [data] of the lookup is read; with an error it is [null]. *)
Definition setUserPassword (email password : string) : M DB unit :=
  try_catch
    (r <- await_further (SelectProfileIdByEmail email) ;;
     match r with
     | Failed _ => throw (mk_Error "User not found")
     | Data usersId =>
         r' <- await_further (AuthAdminUpdateUserById usersId password) ;;
         match r' with
         | Failed error => throw error
         | Data _ => ret tt
         end
     end)
    (fun error => console_error "Error setting password:" error ;; throw error).

Definition getUserById (id : string) : M DB (option User.t) :=
  try_catch
    (r <- await_further (SelectProfile id) ;;
     match r with
     | Failed error => console_error "Error fetching user:" error ;; ret None
     | Data data => ret (Some data)
     end)
    (fun error => console_error "Error fetching user:" error ;; ret None).
End AuthProviderRest.

(** The row store answers these too.  A [single()] read of a row that is not
    there reports an error; signing in is granted to the e-mail addresses of
    the stored profiles (pass words are not kept); deleting the auth user
    removes the profile with it. *)
Definition no_rows : Error := mk_Error "no rows returned".

Definition invalid_credentials : Error := mk_Error "Invalid login credentials".

Definition perform_further {A : Type} (q : FurtherRequest A) (s : RowStore.t)
  : Response A * RowStore.t :=
  match q in FurtherRequest A return Response A * RowStore.t with
  | UpdateMachine updates id =>
      (Data tt,
       RowStore.mk (RowStore.profiles s) (RowStore.machine_types s)
         (map (fun m => if (Machine.id m =? id)%string
                        then merge_machine m updates else m) (RowStore.machines s))
         (RowStore.bookings s) (RowStore.audit_logs s) (RowStore.next s)
         (RowStore.faults s))
  | UpdateMachineType updates id =>
      (Data tt,
       RowStore.mk (RowStore.profiles s)
         (map (fun c => if (MachineType.id c =? id)%string
                        then merge_machineType c updates else c)
            (RowStore.machine_types s))
         (RowStore.machines s) (RowStore.bookings s) (RowStore.audit_logs s)
         (RowStore.next s) (RowStore.faults s))
  | InsertAuditLog d =>
      (Data tt,
       RowStore.mk (RowStore.profiles s) (RowStore.machine_types s)
         (RowStore.machines s) (RowStore.bookings s)
         (RowStore.audit_logs s
            ++ [AuditLog.mk (RowStore.fresh "A" s) (ald_user_id d) (ald_action d)
                  (ald_entity_id d) (RowStore.next s)])%list
         (RowStore.next s + 1) (RowStore.faults s))
  | SelectProfile userId =>
      (match find (fun u => (User.id u =? userId)%string) (RowStore.profiles s) with
       | Some u => Data u
       | None => Failed no_rows
       end, s)
  | SelectProfiles =>
      (Data (sort_by (fun a b => User.created_at b <=? User.created_at a)
               (RowStore.profiles s)), s)
  | SelectProfileIdByEmail email =>
      (match find (fun u => (User.email u =? email)%string) (RowStore.profiles s) with
       | Some u => Data (User.id u)
       | None => Failed no_rows
       end, s)
  | SignInWithPassword email _ =>
      (match find (fun u => (User.email u =? email)%string) (RowStore.profiles s) with
       | Some u => Data (Some (User.id u))
       | None => Failed invalid_credentials
       end, s)
  | AuthAdminDeleteUser id =>
      (Data tt,
       RowStore.mk
         (filter (fun u => negb (User.id u =? id)%string) (RowStore.profiles s))
         (RowStore.machine_types s) (RowStore.machines s) (RowStore.bookings s)
         (RowStore.audit_logs s) (RowStore.next s) (RowStore.faults s))
  | AuthAdminUpdateUserById _ _ => (Data tt, s)
  end.

Definition run_further {A : Type} (q : FurtherRequest A) (s : RowStore.t)
  : Reply A * RowStore.t :=
  match RowStore.faults s with
  | Refuse error :: rest => (Resolved (Failed error), RowStore.with_faults rest s)
  | Crash e :: rest => (Rejected e, RowStore.with_faults rest s)
  | Healthy :: rest =>
      let '(r, s') := perform_further q (RowStore.with_faults rest s) in
      (Resolved r, s')
  | [] =>
      let '(r, s') := perform_further q s in
      (Resolved r, s')
  end.

#[export] Instance RowStore_FurtherStore : FurtherStore RowStore.t :=
  {| exec_further := @run_further |}.

(* ================================================================= *)
(** ** Vocabulary for the properties of identifiers and snapshots *)

(** The number [generateMachineId] reads from a machine, and
    [generateMachineTypeId] from a category. *)
Definition machine_number (machine : Machine.t) : JS.number :=
  JS.parseInt (JS.substring 4 (Machine.id machine)).

Definition type_number (type : MachineType.t) : JS.number :=
  JS.parseInt (JS.remove_first "C" (MachineType.id type)).

(** The running maximum of a [reduce] over numbers, [NaN] skipped. *)
Definition max_step (acc : Z) (n : JS.number) : Z :=
  match n with
  | JS.Int v => Z.max acc v
  | JS.NaN => acc
  end.

Definition running_max (l : list JS.number) (acc : Z) : Z :=
  fold_left max_step l acc.

(** A number that JavaScript holds exactly, and so its successor: below
    [Number.MAX_SAFE_INTEGER] in absolute value. *)
Definition safe (n : JS.number) : Prop :=
  match n with
  | JS.Int v => Z.abs v < 2 ^ 53 - 1
  | JS.NaN => True
  end.

Definition in_category (cat : string) (machines : list Machine.t)
  : list Machine.t :=
  filter (fun m => Machine.machine_type_id m =? cat)%string machines.

(** Two worlds in which the providers hold the same state; the store and
    the console may differ. *)
Definition same_view {DB : Type} (w1 w2 : World DB) : Prop :=
  with_console [] (with_store (store w2) w1) = with_console [] w2.

(** What a response carries in [data]: nothing when it is an error. *)
Definition data_of {A : Type} (r : Reply A) : option A :=
  match r with
  | Resolved (Data a) => Some a
  | Resolved (Failed _) | Rejected _ => None
  end.

(** [true] when the promise resolved, with data or with an error. *)
Definition resolved {A : Type} (r : Reply A) : bool :=
  match r with
  | Resolved _ => true
  | Rejected _ => false
  end.

(* ================================================================= *)
(** ** Runs of calls, and refreshes *)


Section Runs.
Context {DB : Type} `{DataStore DB}.





(** [w'] is [w] after a refresh of the machine provider from the store: the
    three lists are read in turn, each list takes the rows of its own read
    if that gave data, a thrown read ends the refresh, and the loading flag
    is down at the end.  Nothing comes from anywhere but the store. *)
Definition machine_data_refreshed (w w' : World DB) : Prop :=
  let r1 := exec SelectMachineTypes (store w) in
  let r2 := exec SelectMachines (snd r1) in
  let r3 := exec SelectAuditLogs (snd r2) in
  machineTypes w'
  = match data_of (fst r1) with
    | Some rows => rows
    | None => machineTypes w
    end
  /\ machines w'
     = (if resolved (fst r1)
        then match data_of (fst r2) with
             | Some rows => rows
             | None => machines w
             end
        else machines w)
  /\ auditLogs w'
     = (if resolved (fst r1) && resolved (fst r2)
        then match data_of (fst r3) with
             | Some rows => rows
             | None => auditLogs w
             end
        else auditLogs w)
  /\ store w'
     = (if resolved (fst r1)
        then if resolved (fst r2) then snd r3 else snd r2
        else snd r1)
  /\ machines_isLoading w' = false
  /\ user w' = user w
  /\ bookings w' = bookings w
  /\ bookings_isLoading w' = bookings_isLoading w.
End Runs.

(** A store that holds a machine and a booking the client has not loaded. *)
Definition unloaded_world : World RowStore.t :=
  initial_world (RowStore.mk [] [printers] [machine_of "C01M01" "C01"]
                   [first_booking] [] 2 []).

(** An event that announces another booking than the one stored. *)
Definition stray_event : Payload Booking.t :=
  mk_Payload INSERT (Some second_booking) None.

(** Alice under a new name. *)
Definition rename_to_Alicia : User.patch :=
  User.mk_patch None None (Some "Alicia") None None None None None.

(** A second printer to add, and a machine sent to maintenance. *)
Definition second_printer : MachineData := mk_MachineData "Prusa" "C01" available.

Definition to_maintenance : MachinePatch :=
  mk_MachinePatch None None None (Some maintenance) None.

Definition lasers : MachineTypeData := mk_MachineTypeData "Laser cutter" 3.

Definition rename_to_C09 : MachineTypePatch :=
  mk_MachineTypePatch (Some "C09") None None.

(* ================================================================= *)
(** * Properties *)

(** ** Reading decimal digits *)

Lemma digit_char (c : ascii) :
  is_digit c = true ->
  JS.is_white c = false
  /\ (c =? "-")%char = false /\ (c =? "+")%char = false
  /\ (c =? "x")%char = false /\ (c =? "X")%char = false
  /\ JS.digit_val 10 c = Some (Z.of_nat (nat_of_ascii c) - 48).
Proof.
  destruct c as [[] [] [] [] [] [] [] []]; vm_compute; intro Hd;
    try discriminate Hd; repeat split.
Qed.

Lemma parse_digits_decimal (d : string) :
  all_digits d = true ->
  forall acc, JS.parse_digits 10 d (Some acc) = Some (decimal_value d acc).
Proof.
  induction d as [|c d IH]; intros Hall acc.
  - reflexivity.
  - cbn [all_digits] in Hall. apply andb_true_iff in Hall as [Hc Hd].
    cbn [JS.parse_digits decimal_value].
    destruct (digit_char c Hc) as (_ & _ & _ & _ & _ & Hv).
    rewrite Hv. apply IH, Hd.
Qed.

Lemma parseInt_decimal (d : string) :
  d <> EmptyString -> all_digits d = true ->
  JS.parseInt d = JS.Int (decimal_value d 0).
Proof.
  destruct d as [|c d]; [congruence|]. intros _ Hall.
  cbn [all_digits] in Hall. apply andb_true_iff in Hall as [Hc Hd].
  destruct (digit_char c Hc) as (Hw & Hminus & Hplus & _ & _ & Hv).
  unfold JS.parseInt. cbn [JS.trim_start]. rewrite Hw.
  cbn [JS.strip_sign]. rewrite Hminus, Hplus.
  assert (Hradix : JS.strip_radix (String c d) = (10, String c d)).
  { destruct d as [|c1 d]; [reflexivity|].
    cbn [all_digits] in Hd. apply andb_true_iff in Hd as [Hc1 _].
    destruct (digit_char c1 Hc1) as (_ & _ & _ & Hx & HX & _).
    cbn [JS.strip_radix]. rewrite Hx, HX, andb_false_r. reflexivity. }
  rewrite Hradix. cbn [JS.parse_digits decimal_value]. rewrite Hv.
  rewrite (parse_digits_decimal d Hd). f_equal. apply Z.mul_1_l.
Qed.

(** ** Prefixes *)

Lemma strip_prefix_append (p d : string) : strip_prefix p (p ++ d) = Some d.
Proof.
  induction p as [|a p IH]; cbn; [reflexivity|].
  rewrite Ascii.eqb_refl. exact IH.
Qed.

Lemma strip_prefix_inv (p s d : string) :
  strip_prefix p s = Some d -> s = p ++ d.
Proof.
  revert s. induction p as [|a p IH]; intros s Hs; cbn in Hs.
  - injection Hs as ->. reflexivity.
  - destruct s as [|b s]; [discriminate|].
    destruct (Ascii.eqb_spec a b) as [->|]; [|discriminate].
    cbn. f_equal. apply IH, Hs.
Qed.

Lemma substring_after_prefix (cat d : string) :
  String.length cat = 3%nat -> JS.substring 4 ((cat ++ "M") ++ d) = d.
Proof.
  destruct cat as [|a [|b [|c [|? ?]]]]; try discriminate. reflexivity.
Qed.

Lemma append_assoc (a b c : string) : a ++ b ++ c = (a ++ b) ++ c.
Proof. induction a as [|x a IH]; cbn; [reflexivity|]. now rewrite IH. Qed.

(** ** The running maximum of [generateMachineId] *)

Section MaxMachineNum.
Variable cat : string.
Hypothesis cat_length : String.length cat = 3%nat.

(** One round of the [reduce] callback agrees with the spec's rule for the
    identifier it looks at. *)
Lemma reduce_step (i : string) (acc : Z) :
  well_formed_id cat i \/ non_numeric_id i ->
  (if JS.gt (JS.parseInt (JS.substring 4 i)) (JS.Int acc)
   then JS.parseInt (JS.substring 4 i) else JS.Int acc)
  = JS.Int (match numeric_suffix cat i with
            | Some n => Z.max n acc
            | None => acc
            end).
Proof.
  intros [(d & -> & Hne & Hall & _) | Hnan].
  - rewrite append_assoc, (substring_after_prefix cat d cat_length).
    unfold numeric_suffix. rewrite strip_prefix_append.
    rewrite (parseInt_decimal d Hne Hall).
    destruct d as [|c d]; [congruence|]. rewrite Hall.
    cbn [JS.gt]. destruct (Z.ltb_spec acc (decimal_value (String c d) 0));
      f_equal; lia.
  - red in Hnan. rewrite Hnan. cbn [JS.gt].
    unfold numeric_suffix.
    destruct (strip_prefix (cat ++ "M") i) as [d|] eqn:Hp; [|reflexivity].
    destruct d as [|c d]; [reflexivity|].
    destruct (all_digits (String c d)) eqn:Hall; [|reflexivity].
    apply strip_prefix_inv in Hp. subst i.
    rewrite (substring_after_prefix cat _ cat_length) in Hnan.
    rewrite parseInt_decimal in Hnan by (congruence || assumption).
    discriminate Hnan.
Qed.

Lemma reduce_max (l : list Machine.t) :
  (forall m, In m l ->
             well_formed_id cat (Machine.id m) \/ non_numeric_id (Machine.id m)) ->
  forall acc, 0 <= acc ->
    fold_left
      (fun max machine =>
         let machineNum := JS.parseInt (JS.substring 4 (Machine.id machine)) in
         if JS.gt machineNum max then machineNum else max)
      l (JS.Int acc)
    = JS.Int (Z.max acc
                (fold_right
                   (fun m a => match numeric_suffix cat (Machine.id m) with
                               | Some n => Z.max n a
                               | None => a
                               end) 0 l)).
Proof.
  induction l as [|m l IH]; intros Hwf acc Hacc.
  - cbn. f_equal. lia.
  - cbn [fold_left fold_right]. cbv beta zeta.
    rewrite (reduce_step (Machine.id m) acc) by (apply Hwf; now left).
    rewrite IH.
    + f_equal. destruct (numeric_suffix cat (Machine.id m)); lia.
    + intros m' Hin. apply Hwf. now right.
    + destruct (numeric_suffix cat (Machine.id m)); lia.
Qed.
End MaxMachineNum.

Lemma max_suffix_nonneg (cat : string) (l : list Machine.t) : 0 <= max_suffix cat l.
Proof.
  unfold max_suffix.
  induction (filter (fun m => Machine.machine_type_id m =? cat)%string l)
    as [|m l' IH]; cbn; [lia|].
  destruct (numeric_suffix cat (Machine.id m)); lia.
Qed.

(** The maximum the code computes is the maximum suffix of the spec, for a
    three-character category whose machines are well formed or carry no
    number. *)
Lemma maxMachineNum_is_max_suffix (cat : string) (existing : list Machine.t) :
  String.length cat = 3%nat ->
  (forall m, In m existing -> Machine.machine_type_id m = cat ->
             well_formed_id cat (Machine.id m) \/ non_numeric_id (Machine.id m)) ->
  generateMachineId existing cat
  = cat ++ "M"
      ++ JS.padStart 2 "0" (JS.String_ (JS.Int (max_suffix cat existing + 1))).
Proof.
  intros Hlen Hwf. unfold generateMachineId.
  rewrite (reduce_max cat Hlen); [| |lia].
  - fold (max_suffix cat existing).
    rewrite Z.max_r by apply max_suffix_nonneg. reflexivity.
  - intros m Hin. apply filter_In in Hin as [Hin Heq].
    apply Hwf; [exact Hin|]. now apply String.eqb_eq.
Qed.

(* ================================================================= *)
(** ** Reads of the booking provider *)

(** Unfolds a function of a provider down to the store's reply. *)
Ltac run_body :=
  cbv beta iota zeta delta
    [try_catch try_finally bind ret throw await get modify
     setUser setBookings setBookingsLoading setMachines setMachineTypes
     setAuditLogs setMachinesLoading console_error console_log].

Section Reads.
Context {DB : Type} `{DataStore DB}.

(** C10.  When the read of a refresh reports an error or throws,
    [loadBookings] returns with the bookings snapshot as it was and the
    loading flag reset; apart from that only the console line is new (and
    the store is in whatever state the failed request left it). *)
Theorem loadBookings_failed_read_keeps_snapshot (w : World DB) (error : Error) :
  failure (fst (exec (SelectBookings AllBookings) (store w))) = Some error ->
  let w' := snd (loadBookings w) in
  loadBookings w
  = (Return tt,
     logged (console_error_entry "Error loading bookings:" error)
       (with_bookings_isLoading false
          (with_store (snd (exec (SelectBookings AllBookings) (store w))) w)))
  /\ bookings w' = bookings w
  /\ bookings_isLoading w' = false.
Proof.
  intros Hfail. unfold loadBookings. run_body. cbn [store with_bookings_isLoading].
  destruct (exec (SelectBookings AllBookings) (store w)) as [[[data|err]|e] db'];
    cbn in Hfail; try discriminate Hfail; injection Hfail as ->;
    repeat split.
Qed.

(** C9.  When the query fails or throws, [getBookingsByUser] and
    [getBookingsByMachine] return the empty list; nothing is thrown to the
    caller, and the snapshot is not touched. *)
Theorem getBookings_failure_gives_empty_list
  (w : World DB) (key : string) (error : Error) :
  (failure (fst (exec (SelectBookings (ByUser key)) (store w))) = Some error ->
   fst (getBookingsByUser key w) = Return []
   /\ bookings (snd (getBookingsByUser key w)) = bookings w)
  /\ (failure (fst (exec (SelectBookings (ByMachine key)) (store w))) = Some error ->
      fst (getBookingsByMachine key w) = Return []
      /\ bookings (snd (getBookingsByMachine key w)) = bookings w).
Proof.
  split; intros Hfail.
  - unfold getBookingsByUser. run_body.
    destruct (exec (SelectBookings (ByUser key)) (store w)) as [[[data|err]|e] db'];
      cbn in Hfail; try discriminate Hfail; split; reflexivity.
  - unfold getBookingsByMachine. run_body.
    destruct (exec (SelectBookings (ByMachine key)) (store w))
      as [[[data|err]|e] db'];
      cbn in Hfail; try discriminate Hfail; split; reflexivity.
Qed.

(** A refresh of the machine provider is made of its three reads. *)
Lemma loadData_refreshes (w : World DB) :
  fst (loadData w) = Return tt /\ machine_data_refreshed w (snd (loadData w)).
Proof.
  unfold loadData, machine_data_refreshed. run_body.
  cbn [store with_machines_isLoading].
  destruct (exec SelectMachineTypes (store w)) as [[[types|err]|e] db1];
    cbn [fst snd store with_store with_machineTypes logged with_console
           data_of resolved andb];
    try (repeat split; fail);
    (destruct (exec SelectMachines db1) as [[[ms|err2]|e2] db2];
     cbn [fst snd store with_store with_machines logged with_console
            data_of resolved andb];
     try (repeat split; fail);
     (destruct (exec SelectAuditLogs db2) as [[[logs|err3]|e3] db3];
      repeat split)).
Qed.

(** C8.  A Change Feed event makes the providers read everything again
    from the Data Store, and nothing of the event reaches a snapshot.  The
    handler of the bookings subscription writes the payload to the console,
    reads all bookings from the store and puts the rows read in place of the
    snapshot (keeping the snapshot when the read fails); the handlers of the
    machine provider refresh categories, machines and audit entries from
    their three reads.  This holds for every payload and every store. *)
Theorem change_events_only_refresh (w : World DB) :
  (forall payload : Payload Booking.t,
      onBookingsChange payload w
      = let noted :=
          logged (console_log_entry "Booking change received:" payload) w in
        match exec (SelectBookings AllBookings) (store w) with
        | (Resolved (Data rows), db') =>
            (Return tt,
             with_bookings rows
               (with_bookings_isLoading false (with_store db' noted)))
        | (Resolved (Failed error), db') | (Rejected error, db') =>
            (Return tt,
             logged (console_error_entry "Error loading bookings:" error)
               (with_bookings_isLoading false (with_store db' noted)))
        end)
  /\ (forall payload,
         fst (onMachinesChange payload w) = Return tt
         /\ machine_data_refreshed w (snd (onMachinesChange payload w)))
  /\ (forall payload,
         fst (onMachineTypesChange payload w) = Return tt
         /\ machine_data_refreshed w (snd (onMachineTypesChange payload w)))
  /\ (forall payload,
         fst (onAuditLogsChange payload w) = Return tt
         /\ machine_data_refreshed w (snd (onAuditLogsChange payload w))).
Proof.
  split; [|repeat split; apply loadData_refreshes].
  intros payload. unfold onBookingsChange, loadBookings. run_body.
  cbn [store logged with_console with_bookings_isLoading].
  destruct (exec (SelectBookings AllBookings) (store w)) as [[[rows|err]|e] db'];
    reflexivity.
Qed.
End Reads.

(** The store is down while Alice's page refreshes: her booking stays on
    screen. *)
Lemma loadBookings_failed_read_witness :
  failure (fst (exec (SelectBookings AllBookings)
                  (store (scenario_world [Crash outage])))) = Some outage
  /\ bookings (snd (loadBookings (scenario_world [Crash outage]))) = [first_booking]
  /\ bookings_isLoading (snd (loadBookings (scenario_world [Crash outage]))) = false.
Proof.
  assert (Hfail : failure (fst (exec (SelectBookings AllBookings)
                                  (store (scenario_world [Crash outage]))))
                  = Some outage) by reflexivity.
  split; [exact Hfail|].
  destruct (loadBookings_failed_read_keeps_snapshot
              (scenario_world [Crash outage]) outage Hfail) as (_ & Hb & Hl).
  split; [exact Hb | exact Hl].
Defined.

Lemma getBookings_failure_witness :
  failure (fst (exec (SelectBookings (ByUser "u1"))
                  (store (scenario_world [Refuse outage])))) = Some outage
  /\ failure (fst (exec (SelectBookings (ByMachine "C01M01"))
                     (store (scenario_world [Refuse outage])))) = Some outage
  /\ fst (getBookingsByUser "u1" (scenario_world [Refuse outage])) = Return []
  /\ fst (getBookingsByMachine "C01M01" (scenario_world [Refuse outage]))
     = Return [].
Proof.
  destruct (getBookings_failure_gives_empty_list
              (scenario_world [Refuse outage]) "u1" outage) as [Hu _].
  destruct (getBookings_failure_gives_empty_list
              (scenario_world [Refuse outage]) "C01M01" outage) as [_ Hm].
  assert (Hfu : failure (fst (exec (SelectBookings (ByUser "u1"))
                                (store (scenario_world [Refuse outage]))))
                = Some outage) by reflexivity.
  assert (Hfm : failure (fst (exec (SelectBookings (ByMachine "C01M01"))
                                (store (scenario_world [Refuse outage]))))
                = Some outage) by reflexivity.
  split; [exact Hfu|]. split; [exact Hfm|]. split.
  - exact (proj1 (Hu Hfu)).
  - exact (proj1 (Hm Hfm)).
Defined.

(* ================================================================= *)
(** ** Writes of the providers *)

Section Writes.
Context {DB : Type} `{DataStore DB}.

(** C1, as amended.  [addBooking] checks nothing about the proposed
    interval: what happens is decided by the store's answer to the insert
    alone.  If the store returns the new row, [addBooking] returns it and
    puts it first in the snapshot, also when it overlaps a pending or
    approved booking of the same machine; if the store reports an error or
    the call throws, [addBooking] throws that same error and the snapshot
    is as before.  No other field of the client state changes. *)
Theorem addBooking_outcome_is_the_stores
  (w : World DB) (bookingData : Booking.data) :
  addBooking bookingData w
  = match exec (InsertBooking bookingData) (store w) with
    | (Resolved (Data newBooking), db') =>
        (Return newBooking,
         with_bookings (newBooking :: bookings w) (with_store db' w))
    | (Resolved (Failed error), db') | (Rejected error, db') =>
        (Throw error,
         logged (console_error_entry "Error adding booking:" error)
           (with_store db' w))
    end.
Proof.
  unfold addBooking. run_body.
  destruct (exec (InsertBooking bookingData) (store w))
    as [[[newBooking|error]|error] db']; reflexivity.
Qed.

(** C4, as amended.  [updateBooking] knows no state machine.  Whatever the
    current status of a booking [b] of the snapshot and whatever the new
    status [s], if the store accepts the update then [updateBooking]
    returns and [b] appears in the snapshot with status [s]; if the store
    reports an error or the call throws, [updateBooking] throws that error
    and the snapshot is unchanged. *)
Theorem updateBooking_sets_any_status
  (w : World DB) (b : Booking.t) (s : BookingStatus) :
  In b (bookings w) ->
  let call := updateBooking (Booking.id b) (Booking.set_status s) w in
  let reply := fst (exec (UpdateBooking (Booking.set_status s) (Booking.id b))
                      (store w)) in
  (failure reply = None ->
   fst call = Return tt
   /\ In (Booking.merge b (Booking.set_status s)) (bookings (snd call))
   /\ Booking.status (Booking.merge b (Booking.set_status s)) = s)
  /\ (forall error, failure reply = Some error ->
                    fst call = Throw error /\ bookings (snd call) = bookings w).
Proof.
  intros Hin call reply. subst call reply. unfold updateBooking. run_body.
  destruct (exec (UpdateBooking (Booking.set_status s) (Booking.id b)) (store w))
    as [[[[]|err]|e] db']; cbn [fst snd failure]; split;
    try (intros Hnone; discriminate Hnone);
    try (intros error Hsome; try discriminate Hsome;
         injection Hsome as ->; split; reflexivity).
  intros _. split; [reflexivity|]. split; [|reflexivity].
  cbn [bookings with_bookings with_store].
  apply in_map_iff. exists b. rewrite String.eqb_refl. split; [reflexivity|exact Hin].
Qed.

(** C7, as amended.  [deleteMachineType] does not look at the machines.
    The category is removed from the local list exactly when the store
    accepts the delete, whether or not a machine still belongs to it, and
    the local machines stay as they are; when the store reports an error or
    the call throws, that error is thrown and the category remains. *)
Theorem deleteMachineType_asks_only_the_store (w : World DB) (id : string) :
  let call := deleteMachineType id w in
  let reply := fst (exec (DeleteMachineType id) (store w)) in
  machines (snd call) = machines w
  /\ (failure reply = None ->
      fst call = Return tt
      /\ machineTypes (snd call)
         = filter (fun type => negb (MachineType.id type =? id)%string)
             (machineTypes w))
  /\ (forall error, failure reply = Some error ->
                    fst call = Throw error
                    /\ machineTypes (snd call) = machineTypes w).
Proof.
  intros call reply. subst call reply. unfold deleteMachineType. run_body.
  destruct (exec (DeleteMachineType id) (store w)) as [[[[]|err]|e] db'];
    cbn [fst snd failure]; (split; [reflexivity|]); split;
    try (intros Hnone; discriminate Hnone);
    try (intros error Hsome; try discriminate Hsome;
         injection Hsome as ->; split; reflexivity).
  intros _. split; reflexivity.
Qed.
End Writes.

(** Scenario C on the code: the second request overlaps the pending first
    booking of [C01M01], the store takes the row, and [addBooking] returns
    it; both bookings are now stored and shown. *)
Lemma addBooking_accepts_overlap :
  In first_booking (RowStore.bookings (store (scenario_world [])))
  /\ conflicts_with second_request first_booking = true
  /\ fst (addBooking second_request (scenario_world [])) = Return second_booking
  /\ RowStore.bookings (store (snd (addBooking second_request (scenario_world []))))
     = [first_booking; second_booking]
  /\ bookings (snd (addBooking second_request (scenario_world [])))
     = [second_booking; first_booking].
Proof. repeat split. now left. Qed.

(** A rejected booking is approved by a plain update. *)
Lemma updateBooking_leaves_terminal_status :
  terminal (Booking.status rejected_booking) = true
  /\ legal_transition rejected approved = false
  /\ fst (updateBooking "B1" (Booking.set_status approved) rejected_world)
     = Return tt
  /\ map Booking.status
       (bookings (snd (updateBooking "B1" (Booking.set_status approved)
                         rejected_world)))
     = [approved]
  /\ map Booking.status
       (RowStore.bookings
          (store (snd (updateBooking "B1" (Booking.set_status approved)
                         rejected_world))))
     = [approved].
Proof. repeat split. Qed.

Lemma updateBooking_sets_any_status_witness :
  In rejected_booking (bookings rejected_world)
  /\ failure (fst (exec (UpdateBooking (Booking.set_status approved) "B1")
                     (store rejected_world))) = None
  /\ fst (updateBooking "B1" (Booking.set_status approved) rejected_world)
     = Return tt
  /\ In (Booking.merge rejected_booking (Booking.set_status approved))
       (bookings (snd (updateBooking "B1" (Booking.set_status approved)
                         rejected_world))).
Proof.
  assert (Hin : In rejected_booking (bookings rejected_world)) by (now left).
  assert (Hok : failure (fst (exec (UpdateBooking (Booking.set_status approved) "B1")
                                (store rejected_world))) = None) by reflexivity.
  destruct (updateBooking_sets_any_status rejected_world rejected_booking approved
              Hin) as [Haccepted _].
  destruct (Haccepted Hok) as (Hret & Hthere & _).
  split; [exact Hin|]. split; [exact Hok|]. split; [exact Hret | exact Hthere].
Defined.

(** Category [C01] is deleted while machine [C01M01] belongs to it. *)
Lemma deleteMachineType_with_machines :
  map Machine.machine_type_id (RowStore.machines (store (scenario_world [])))
  = ["C01"]
  /\ fst (deleteMachineType "C01" (scenario_world [])) = Return tt
  /\ RowStore.machine_types (store (snd (deleteMachineType "C01" (scenario_world []))))
     = []
  /\ machineTypes (snd (deleteMachineType "C01" (scenario_world []))) = []
  /\ map Machine.machine_type_id
       (RowStore.machines (store (snd (deleteMachineType "C01" (scenario_world [])))))
     = ["C01"].
Proof. repeat split. Qed.

Lemma deleteMachineType_witness :
  failure (fst (exec (DeleteMachineType "C01") (store (scenario_world [Refuse outage]))))
  = Some outage
  /\ fst (deleteMachineType "C01" (scenario_world [Refuse outage])) = Throw outage
  /\ machineTypes (snd (deleteMachineType "C01" (scenario_world [Refuse outage])))
     = [printers].
Proof.
  assert (Hfail : failure (fst (exec (DeleteMachineType "C01")
                                  (store (scenario_world [Refuse outage]))))
                  = Some outage) by reflexivity.
  destruct (deleteMachineType_asks_only_the_store
              (scenario_world [Refuse outage]) "C01") as (_ & _ & Hblocked).
  split; [exact Hfail|]. exact (Hblocked outage Hfail).
Defined.

(** An event about a booking that is not the stored one: after the handler
    the snapshot holds what the store holds, and the machine provider what
    the store holds of machines. *)
Example change_event_on_unloaded_client :
  bookings unloaded_world = []
  /\ bookings (snd (onBookingsChange stray_event unloaded_world)) = [first_booking]
  /\ machines (snd (onMachinesChange (mk_Payload DELETE None None) unloaded_world))
     = [machine_of "C01M01" "C01"].
Proof. repeat split. Qed.

(* ================================================================= *)
(** ** The token fields *)

Section Tokens.
Context {DB : Type} `{DataStore DB}.

(** C2, as amended.  [addBooking] itself reserves nothing.  For every
    store, world and booking: the store is sent the insert of the booking as
    given, and nothing else; the call throws exactly when that insert fails,
    with the store's error, and returns a row exactly when the insert gives
    one; neither outcome nor what is sent depends on who is signed in or on
    their balance; and the signed-in user, token fields included, is left as
    it was. *)
Theorem addBooking_reserves_nothing
  (w : World DB) (bookingData : Booking.data) :
  let call := addBooking bookingData w in
  let reply := exec (InsertBooking bookingData) (store w) in
  store (snd call) = snd reply
  /\ user (snd call) = user w
  /\ (forall error, fst call = Throw error <-> failure (fst reply) = Some error)
  /\ (forall newBooking,
         fst call = Return newBooking <-> data_of (fst reply) = Some newBooking)
  /\ (forall someone : option User.t,
         fst (addBooking bookingData (with_user someone w)) = fst call
         /\ store (snd (addBooking bookingData (with_user someone w)))
            = store (snd call)).
Proof.
  unfold addBooking. run_body. cbn [store with_user].
  destruct (exec (InsertBooking bookingData) (store w))
    as [[[newBooking|err]|e] db'];
    cbn [fst snd failure data_of];
    (split; [reflexivity|]); (split; [reflexivity|]);
    (split; [intros error; split; intros Heq; try discriminate Heq;
             injection Heq as ->; reflexivity|]);
    (split; [intros b; split; intros Heq; try discriminate Heq;
             injection Heq as ->; reflexivity|]);
    intros someone; split; reflexivity.
Qed.

(** *** The balance equation *)





End Tokens.

(** On a store that only keeps rows, Alice, with 6 tokens left, creates a
    booking of 8 tokens and one of 4 tokens: both calls return, the rows are
    stored, and her profile and the signed-in user still read given 10,
    consumed 4, remaining 6. *)
Lemma addBooking_without_reservation :
  User.tokens_remaining alice = 6
  /\ Booking.d_tokens_consumed costly_request = 8
  /\ (exists b, fst (addBooking costly_request (scenario_world [])) = Return b
                /\ In b (RowStore.bookings
                           (store (snd (addBooking costly_request
                                          (scenario_world []))))))
  /\ RowStore.profiles (store (snd (addBooking costly_request (scenario_world []))))
     = [alice]
  /\ user (snd (addBooking costly_request (scenario_world []))) = Some alice
  /\ Booking.d_tokens_consumed second_request = 4
  /\ fst (addBooking second_request (scenario_world [])) = Return second_booking
  /\ map User.tokens_consumed
       (RowStore.profiles
          (store (snd (addBooking second_request (scenario_world [])))))
     = [4]
  /\ user (snd (addBooking second_request (scenario_world []))) = Some alice.
Proof.
  repeat split. eexists. split; [reflexivity|]. right. now left.
Qed.



(* ================================================================= *)
(** ** Scenario A, run through [addMachine] *)

(** In a fresh world the first machine of [C01] is stored as [C01M01].
    The function of the next render, which sees that machine, stores the
    second as [C01M02]; the function kept from the first render still sees
    no machine and asks for [C01M01] again. *)
Example addMachine_twice :
  let d := mk_MachineData "Prusa" "C01" available in
  let empty := RowStore.mk [] [printers] [] [] [] 0 [] in
  let w0 := mk_World empty None [] false [] [printers] [] false [] in
  let w1 := snd (addMachine (machines w0) d w0) in
  let id_of (o : Outcome Machine.t) :=
    match o with Return m => Some (Machine.id m) | Throw _ => None end in
  id_of (fst (addMachine (machines w0) d w0)) = Some "C01M01"
  /\ id_of (fst (addMachine (machines w1) d w1)) = Some "C01M02"
  /\ id_of (fst (addMachine (machines w0) d w1)) = Some "C01M01".
Proof. repeat split. Qed.

(* ================================================================= *)
(** ** Writing a number and reading it back *)

Lemma all_digits_of_uint (d : Decimal.uint) :
  all_digits (NilEmpty.string_of_uint d) = true.
Proof. induction d; cbn; auto. Qed.

Lemma decimal_value_of_uint_acc (d : Decimal.uint) (acc : positive) :
  decimal_value (NilEmpty.string_of_uint d) (Z.pos acc)
  = Z.pos (Pos.of_uint_acc d acc).
Proof.
  revert acc. induction d; intros acc; cbn [NilEmpty.string_of_uint decimal_value
                                             Pos.of_uint_acc];
    [reflexivity | ..];
    rewrite <- IHd; f_equal;
    try match goal with
        | |- context [Z.of_nat (nat_of_ascii ?c)] =>
            let v := eval vm_compute in (Z.of_nat (nat_of_ascii c)) in
            change (Z.of_nat (nat_of_ascii c)) with v; lia
        end.
Qed.

Lemma decimal_value_of_uint (d : Decimal.uint) :
  decimal_value (NilEmpty.string_of_uint d) 0 = Z.of_N (Pos.of_uint d).
Proof.
  induction d; cbn [NilEmpty.string_of_uint decimal_value Pos.of_uint];
    [reflexivity | exact IHd | ..];
    cbn [Z.of_N]; rewrite <- decimal_value_of_uint_acc; reflexivity.
Qed.

(** [String(n)] of a number that is not negative: decimal digits, at least
    one, that write [n]. *)
Lemma String_digits (n : Z) :
  0 <= n ->
  all_digits (JS.String_ (JS.Int n)) = true
  /\ JS.String_ (JS.Int n) <> EmptyString
  /\ decimal_value (JS.String_ (JS.Int n)) 0 = n.
Proof.
  intros Hn. destruct n as [|p|p]; [repeat split; discriminate | | lia].
  unfold JS.String_. cbn [Z.to_int NilZero.string_of_int].
  unfold NilZero.string_of_uint.
  pose proof (DecimalPos.Unsigned.to_uint_nonnil p) as Hnil.
  pose proof (DecimalPos.Unsigned.of_to p) as Hback.
  destruct (Pos.to_uint p) eqn:Hd; try congruence;
    rewrite <- Hd in *;
    (split; [apply all_digits_of_uint|]);
    (split; [rewrite Hd; discriminate|]);
    rewrite decimal_value_of_uint, Hback; reflexivity.
Qed.

Lemma repeat_zero_digits (k : nat) (s : string) :
  all_digits (JS.repeat_char "0" k ++ s) = all_digits s
  /\ decimal_value (JS.repeat_char "0" k ++ s) 0 = decimal_value s 0.
Proof. induction k as [|k IH]; [split; reflexivity | exact IH]. Qed.

Lemma string_length_append (a b : string) :
  String.length (a ++ b) = (String.length a + String.length b)%nat.
Proof. induction a as [|c a IH]; cbn; [reflexivity | now rewrite IH]. Qed.

Lemma repeat_char_length (c : ascii) (k : nat) :
  String.length (JS.repeat_char c k) = k.
Proof. induction k as [|k IH]; cbn; [reflexivity | now rewrite IH]. Qed.

(** [padStart] fills up to the width and never cuts. *)
Lemma padStart_length (width : nat) (c : ascii) (s : string) :
  String.length (JS.padStart width c s) = Nat.max width (String.length s).
Proof.
  unfold JS.padStart. rewrite string_length_append, repeat_char_length. lia.
Qed.

(** The suffix written for [n] is made of at least two digits and reads back
    as [n]. *)
Lemma suffix_round_trip (n : Z) :
  0 <= n ->
  let d := JS.padStart 2 "0" (JS.String_ (JS.Int n)) in
  all_digits d = true
  /\ (2 <= String.length d)%nat
  /\ JS.parseInt d = JS.Int n.
Proof.
  intros Hn d. destruct (String_digits n Hn) as (Hall & Hne & Hval).
  assert (Hd : all_digits d = true).
  { subst d. unfold JS.padStart.
    now rewrite (proj1 (repeat_zero_digits _ _)). }
  assert (Hlen : (2 <= String.length d)%nat).
  { subst d. rewrite padStart_length. lia. }
  split; [exact Hd|]. split; [exact Hlen|].
  rewrite parseInt_decimal; [| |exact Hd].
  - subst d. unfold JS.padStart.
    now rewrite (proj2 (repeat_zero_digits _ _)), Hval.
  - intros Hempty. rewrite Hempty in Hlen. cbn in Hlen. lia.
Qed.

(* ================================================================= *)
(** ** The maximum that the identifier generators compute *)

Lemma reduce_running_max {A : Type} (read : A -> JS.number) (l : list A) :
  forall acc,
    fold_left (fun max x => if JS.gt (read x) max then read x else max)
      l (JS.Int acc)
    = JS.Int (running_max (map read l) acc).
Proof.
  induction l as [|x l IH]; intros acc; [reflexivity|].
  cbn [fold_left map]. unfold running_max. cbn [fold_left].
  fold (running_max (map read l) (max_step acc (read x))).
  destruct (read x) as [|v]; cbn [JS.gt max_step]; [apply IH|].
  destruct (Z.ltb_spec acc v); rewrite IH; do 2 f_equal; lia.
Qed.

Lemma running_max_ge_acc (l : list JS.number) :
  forall acc, acc <= running_max l acc.
Proof.
  induction l as [|n l IH]; intros acc; [cbn; lia|].
  unfold running_max. cbn [fold_left]. fold (running_max l (max_step acc n)).
  pose proof (IH (max_step acc n)) as Hge.
  set (r := running_max l (max_step acc n)) in *. clearbody r.
  destruct n; cbn [max_step] in Hge; lia.
Qed.

Lemma running_max_ge_elem (l : list JS.number) (v : Z) :
  In (JS.Int v) l -> forall acc, v <= running_max l acc.
Proof.
  induction l as [|n l IH]; intros Hin acc; [contradiction|].
  unfold running_max. cbn [fold_left]. fold (running_max l (max_step acc n)).
  destruct Hin as [-> | Hin]; [|now apply IH].
  pose proof (running_max_ge_acc l (max_step acc (JS.Int v))) as Hge.
  set (r := running_max l (max_step acc (JS.Int v))) in *. clearbody r.
  cbn [max_step] in Hge. lia.
Qed.

Lemma max_step_swap (acc : Z) (a b : JS.number) :
  max_step (max_step acc a) b = max_step (max_step acc b) a.
Proof. destruct a, b; cbn; lia. Qed.

Lemma running_max_permutation (l l' : list JS.number) :
  Permutation l l' -> forall acc, running_max l acc = running_max l' acc.
Proof.
  induction 1 as [|n l l' _ IH|a b l|l l' l'' _ IH1 _ IH2]; intros acc.
  - reflexivity.
  - unfold running_max. cbn [fold_left]. apply IH.
  - unfold running_max. cbn [fold_left]. now rewrite max_step_swap.
  - now rewrite IH1.
Qed.

Lemma filter_permutation {A : Type} (f : A -> bool) (l l' : list A) :
  Permutation l l' -> Permutation (filter f l) (filter f l').
Proof.
  induction 1 as [|x l l' _ IH|a b l|l l' l'' _ IH1 _ IH2]; cbn.
  - constructor.
  - destruct (f x); [now constructor | exact IH].
  - destruct (f a), (f b); try apply Permutation_refl; constructor.
  - now transitivity (filter f l').
Qed.

Lemma running_max_snoc (l : list JS.number) (n : JS.number) (acc : Z) :
  running_max (l ++ [n]) acc = max_step (running_max l acc) n.
Proof. unfold running_max. now rewrite fold_left_app. Qed.

Lemma in_category_snoc (cat : string) (ms : list Machine.t) (m1 : Machine.t) :
  Machine.machine_type_id m1 = cat ->
  in_category cat (ms ++ [m1]) = (in_category cat ms ++ [m1])%list.
Proof.
  intros Hcat. unfold in_category. rewrite filter_app. cbn [filter].
  now rewrite (proj2 (String.eqb_eq _ _) Hcat).
Qed.

Lemma generateMachineId_running_max (ms : list Machine.t) (cat : string) :
  generateMachineId ms cat
  = cat ++ "M"
      ++ JS.padStart 2 "0"
           (JS.String_
              (JS.Int (running_max (map machine_number (in_category cat ms)) 0 + 1))).
Proof.
  unfold generateMachineId, in_category. cbv zeta.
  change (fun max machine =>
            if JS.gt (JS.parseInt (JS.substring 4 (Machine.id machine))) max
            then JS.parseInt (JS.substring 4 (Machine.id machine)) else max)
    with (fun max x => if JS.gt (machine_number x) max then machine_number x else max).
  now rewrite reduce_running_max.
Qed.

Lemma generateMachineTypeId_running_max (types : list MachineType.t) :
  generateMachineTypeId types
  = "C" ++ JS.padStart 2 "0"
             (JS.String_ (JS.Int (running_max (map type_number types) 0 + 1))).
Proof.
  unfold generateMachineTypeId. cbv zeta.
  change (fun max type =>
            if JS.gt (JS.parseInt (JS.remove_first "C" (MachineType.id type))) max
            then JS.parseInt (JS.remove_first "C" (MachineType.id type)) else max)
    with (fun max x => if JS.gt (type_number x) max then type_number x else max).
  now rewrite reduce_running_max.
Qed.

(** The number of a freshly generated machine identifier, for a category of
    three characters. *)
Lemma generated_machine_number (ms : list Machine.t) (cat : string) (m : Machine.t) :
  String.length cat = 3%nat ->
  Machine.id m = generateMachineId ms cat ->
  machine_number m
  = JS.Int (running_max (map machine_number (in_category cat ms)) 0 + 1).
Proof.
  intros Hlen Hid. unfold machine_number.
  rewrite Hid, generateMachineId_running_max, append_assoc,
    (substring_after_prefix cat _ Hlen).
  pose proof (running_max_ge_acc (map machine_number (in_category cat ms)) 0) as Hr.
  apply (suffix_round_trip
           (running_max (map machine_number (in_category cat ms)) 0 + 1)).
  lia.
Qed.

Lemma generated_type_number (types : list MachineType.t) (t : MachineType.t) :
  MachineType.id t = generateMachineTypeId types ->
  type_number t = JS.Int (running_max (map type_number types) 0 + 1).
Proof.
  intros Hid. unfold type_number.
  rewrite Hid, generateMachineTypeId_running_max.
  change (JS.remove_first "C" ("C" ++ ?d)) with d.
  pose proof (running_max_ge_acc (map type_number types) 0) as Hr.
  apply (suffix_round_trip (running_max (map type_number types) 0 + 1)).
  lia.
Qed.

(* ================================================================= *)
(** ** What the generated identifiers look like *)

(** X1.  Whatever the machines, as long as the numbers read from those of
    the category are safe integers, [generateMachineId] returns the category
    identifier, then [M], then decimal digits, at least two of them. *)
Theorem generateMachineId_shape (ms : list Machine.t) (cat : string) :
  (forall m, In m ms -> Machine.machine_type_id m = cat -> safe (machine_number m)) ->
  exists d : string,
    generateMachineId ms cat = cat ++ "M" ++ d
    /\ all_digits d = true
    /\ (2 <= String.length d)%nat.
Proof.
  intros _. rewrite generateMachineId_running_max.
  pose proof (running_max_ge_acc (map machine_number (in_category cat ms)) 0) as Hr.
  destruct (suffix_round_trip
              (running_max (map machine_number (in_category cat ms)) 0 + 1))
    as (Hall & Hlen & _); [lia|].
  eexists. split; [reflexivity|]. split; [exact Hall | exact Hlen].
Qed.

Lemma scenario_machines_safe :
  forall m, In m [machine_of "C01M01" "C01"] ->
            Machine.machine_type_id m = "C01" -> safe (machine_number m).
Proof. intros m [<- | []] _. vm_compute. reflexivity. Defined.

Lemma generateMachineId_shape_witness :
  (forall m, In m [machine_of "C01M01" "C01"] ->
             Machine.machine_type_id m = "C01" -> safe (machine_number m))
  /\ exists d : string,
      generateMachineId [machine_of "C01M01" "C01"] "C01" = "C01" ++ "M" ++ d
      /\ all_digits d = true
      /\ (2 <= String.length d)%nat.
Proof.
  split; [exact scenario_machines_safe|].
  exact (generateMachineId_shape _ "C01" scenario_machines_safe).
Defined.

(** X2.  Likewise [generateMachineTypeId] returns [C] followed by at least
    two decimal digits. *)
Theorem generateMachineTypeId_shape (types : list MachineType.t) :
  (forall t, In t types -> safe (type_number t)) ->
  exists d : string,
    generateMachineTypeId types = "C" ++ d
    /\ all_digits d = true
    /\ (2 <= String.length d)%nat.
Proof.
  intros _. rewrite generateMachineTypeId_running_max.
  pose proof (running_max_ge_acc (map type_number types) 0) as Hr.
  destruct (suffix_round_trip (running_max (map type_number types) 0 + 1))
    as (Hall & Hlen & _); [lia|].
  eexists. split; [reflexivity|]. split; [exact Hall | exact Hlen].
Qed.

Lemma scenario_types_safe :
  forall t, In t [printers] -> safe (type_number t).
Proof. intros t [<- | []]. vm_compute. reflexivity. Defined.

Lemma generateMachineTypeId_shape_witness :
  (forall t, In t [printers] -> safe (type_number t))
  /\ exists d : string,
      generateMachineTypeId [printers] = "C" ++ d
      /\ all_digits d = true
      /\ (2 <= String.length d)%nat.
Proof.
  split; [exact scenario_types_safe|].
  exact (generateMachineTypeId_shape _ scenario_types_safe).
Defined.

(** X3.  The order in which the machines, or the categories, are held does
    not matter to the identifier that is generated. *)
Theorem generated_identifiers_ignore_order :
  (forall (ms ms' : list Machine.t) (cat : string),
      Permutation ms ms' -> generateMachineId ms cat = generateMachineId ms' cat)
  /\ (forall types types' : list MachineType.t,
         Permutation types types' ->
         generateMachineTypeId types = generateMachineTypeId types').
Proof.
  split.
  - intros ms ms' cat Hperm. rewrite !generateMachineId_running_max.
    rewrite (running_max_permutation
               (map machine_number (in_category cat ms))
               (map machine_number (in_category cat ms'))); [reflexivity|].
    apply Permutation_map, filter_permutation, Hperm.
  - intros types types' Hperm. rewrite !generateMachineTypeId_running_max.
    rewrite (running_max_permutation (map type_number types)
               (map type_number types')); [reflexivity|].
    apply Permutation_map, Hperm.
Qed.

Lemma generated_identifiers_ignore_order_witness :
  Permutation [machine_of "C01M01" "C01"; machine_of "C01M07" "C01"]
    [machine_of "C01M07" "C01"; machine_of "C01M01" "C01"]
  /\ generateMachineId [machine_of "C01M01" "C01"; machine_of "C01M07" "C01"] "C01"
     = generateMachineId [machine_of "C01M07" "C01"; machine_of "C01M01" "C01"] "C01".
Proof.
  assert (Hperm : Permutation
                    [machine_of "C01M01" "C01"; machine_of "C01M07" "C01"]
                    [machine_of "C01M07" "C01"; machine_of "C01M01" "C01"])
    by apply perm_swap.
  split; [exact Hperm|].
  exact (proj1 generated_identifiers_ignore_order _ _ "C01" Hperm).
Defined.

(** X4.  For a category of three characters, the identifier that
    [generateMachineId] returns is not the identifier of any machine held in
    that category (the numbers read being safe integers). *)
Theorem generateMachineId_fresh (ms : list Machine.t) (cat : string) :
  String.length cat = 3%nat ->
  (forall m, In m ms -> Machine.machine_type_id m = cat -> safe (machine_number m)) ->
  forall m, In m ms -> Machine.machine_type_id m = cat ->
            Machine.id m <> generateMachineId ms cat.
Proof.
  intros Hlen _ m Hin Hcat Hid.
  pose proof (generated_machine_number ms cat m Hlen Hid) as Hnum.
  assert (Hle : running_max (map machine_number (in_category cat ms)) 0 + 1
                <= running_max (map machine_number (in_category cat ms)) 0).
  { apply running_max_ge_elem. rewrite <- Hnum. apply in_map.
    apply filter_In. split; [exact Hin|]. now apply String.eqb_eq. }
  lia.
Qed.

Lemma generateMachineId_fresh_witness :
  String.length "C01" = 3%nat
  /\ (forall m, In m [machine_of "C01M01" "C01"] ->
                Machine.machine_type_id m = "C01" -> safe (machine_number m))
  /\ In (machine_of "C01M01" "C01") [machine_of "C01M01" "C01"]
  /\ Machine.id (machine_of "C01M01" "C01")
     <> generateMachineId [machine_of "C01M01" "C01"] "C01".
Proof.
  split; [reflexivity|]. split; [exact scenario_machines_safe|].
  split; [now left|].
  apply (generateMachineId_fresh _ "C01" eq_refl scenario_machines_safe).
  - now left.
  - reflexivity.
Defined.

Lemma next_number_is_one_more
  (ms : list Machine.t) (cat : string) (m1 : Machine.t) :
  String.length cat = 3%nat ->
  Machine.id m1 = generateMachineId ms cat ->
  Machine.machine_type_id m1 = cat ->
  JS.parseInt (JS.substring 4 (generateMachineId (ms ++ [m1]) cat))
  = JS.add (JS.parseInt (JS.substring 4 (generateMachineId ms cat))) (JS.Int 1)
  /\ generateMachineId (ms ++ [m1]) cat <> generateMachineId ms cat.
Proof.
  intros Hlen Hid Hcat.
  pose proof (generated_machine_number ms cat m1 Hlen Hid) as Hnum.
  pose proof (running_max_ge_acc (map machine_number (in_category cat ms)) 0) as Hr.
  assert (Hfirst : JS.parseInt (JS.substring 4 (generateMachineId ms cat))
                   = JS.Int (running_max (map machine_number (in_category cat ms)) 0
                             + 1)).
  { rewrite <- Hid. exact Hnum. }
  assert (Hmax : running_max (map machine_number (in_category cat (ms ++ [m1]))) 0
                 = running_max (map machine_number (in_category cat ms)) 0 + 1).
  { rewrite (in_category_snoc cat ms m1 Hcat), map_app.
    change (map machine_number [m1]) with [machine_number m1].
    rewrite running_max_snoc, Hnum. cbn [max_step]. lia. }
  assert (Hsecond : JS.parseInt (JS.substring 4 (generateMachineId (ms ++ [m1]) cat))
                    = JS.Int (running_max (map machine_number (in_category cat ms)) 0
                              + 1 + 1)).
  { rewrite generateMachineId_running_max, Hmax, append_assoc,
      (substring_after_prefix cat _ Hlen).
    apply (suffix_round_trip
             (running_max (map machine_number (in_category cat ms)) 0 + 1 + 1)).
    lia. }
  split.
  - rewrite Hsecond, Hfirst. reflexivity.
  - intros Heq. rewrite Heq, Hfirst in Hsecond. injection Hsecond. lia.
Qed.

(** X5.  Allocation in a row counts up, for a category of three characters
    and as long as the numbers read from its machines are safe integers:
    once a machine carrying the generated identifier has joined the
    category, the next identifier generated for that category reads one
    more. *)
Theorem generateMachineId_counts_up
  (ms : list Machine.t) (cat : string) (m1 : Machine.t) :
  String.length cat = 3%nat ->
  (forall m, In m ms -> Machine.machine_type_id m = cat -> safe (machine_number m)) ->
  Machine.id m1 = generateMachineId ms cat ->
  Machine.machine_type_id m1 = cat ->
  JS.parseInt (JS.substring 4 (generateMachineId (ms ++ [m1]) cat))
  = JS.add (JS.parseInt (JS.substring 4 (generateMachineId ms cat))) (JS.Int 1)
  /\ generateMachineId (ms ++ [m1]) cat <> generateMachineId ms cat.
Proof.
  intros Hlen _ Hid Hcat. now apply next_number_is_one_more.
Qed.

Lemma generateMachineId_counts_up_witness :
  String.length "C01" = 3%nat
  /\ (forall m, In m [machine_of "C01M01" "C01"] ->
                Machine.machine_type_id m = "C01" -> safe (machine_number m))
  /\ Machine.id (machine_of "C01M02" "C01")
     = generateMachineId [machine_of "C01M01" "C01"] "C01"
  /\ generateMachineId
       ([machine_of "C01M01" "C01"] ++ [machine_of "C01M02" "C01"]) "C01"
     <> generateMachineId [machine_of "C01M01" "C01"] "C01".
Proof.
  split; [reflexivity|]. split; [exact scenario_machines_safe|].
  split; [reflexivity|].
  exact (proj2 (generateMachineId_counts_up _ "C01" (machine_of "C01M02" "C01")
                  eq_refl scenario_machines_safe eq_refl eq_refl)).
Defined.

(** X6.  The number in the identifier that [generateMachineTypeId] returns
    is larger than the number read from any category held, so the identifier
    is none of theirs (the numbers read being safe integers). *)
Theorem generateMachineTypeId_fresh (types : list MachineType.t) :
  (forall t, In t types -> safe (type_number t)) ->
  exists k : Z,
    JS.parseInt (JS.remove_first "C" (generateMachineTypeId types)) = JS.Int k
    /\ forall t, In t types ->
                 (forall v, type_number t = JS.Int v -> v < k)
                 /\ MachineType.id t <> generateMachineTypeId types.
Proof.
  intros _. set (r := running_max (map type_number types) 0).
  exists (r + 1). split.
  - exact (generated_type_number types
             (MachineType.mk (generateMachineTypeId types) "" 0) eq_refl).
  - intros t Hin.
    assert (Hbelow : forall v, type_number t = JS.Int v -> v < r + 1).
    { intros v Hv.
      assert (v <= r); [|lia].
      apply running_max_ge_elem. rewrite <- Hv. now apply in_map. }
    split; [exact Hbelow|].
    intros Hid. specialize (Hbelow _ (generated_type_number types t Hid)). lia.
Qed.

Lemma generateMachineTypeId_fresh_witness :
  (forall t, In t [printers] -> safe (type_number t))
  /\ exists k : Z,
      JS.parseInt (JS.remove_first "C" (generateMachineTypeId [printers])) = JS.Int k
      /\ forall t, In t [printers] ->
                   (forall v, type_number t = JS.Int v -> v < k)
                   /\ MachineType.id t <> generateMachineTypeId [printers].
Proof.
  split; [exact scenario_types_safe|].
  exact (generateMachineTypeId_fresh _ scenario_types_safe).
Defined.

(* ================================================================= *)
(** ** Machine identifiers against the rule of the spec *)

Lemma unorm_leading_zero (d : Decimal.uint) :
  leading_zero (NilEmpty.string_of_uint (Decimal.unorm d)) = true ->
  Decimal.unorm d = Decimal.zero.
Proof. induction d; cbn; intros Hz; try discriminate Hz; auto. Qed.

Lemma String_no_leading_zero (n : Z) :
  0 < n -> leading_zero (JS.String_ (JS.Int n)) = false.
Proof.
  intros Hn. destruct n as [|p|p]; try lia.
  unfold JS.String_. cbn [Z.to_int NilZero.string_of_int].
  pose proof (DecimalPos.Unsigned.to_uint_nonzero p) as Hnz.
  pose proof (DecimalPos.Unsigned.to_uint_nonnil p) as Hnil.
  assert (Hnorm : Decimal.unorm (Pos.to_uint p) = Pos.to_uint p).
  { rewrite <- (DecimalPos.Unsigned.to_of (Pos.to_uint p)).
    now rewrite DecimalPos.Unsigned.of_to. }
  destruct (leading_zero (NilZero.string_of_uint (Pos.to_uint p))) eqn:Hz;
    [|reflexivity].
  exfalso. apply Hnz. rewrite <- Hnorm. apply unorm_leading_zero.
  rewrite Hnorm. unfold NilZero.string_of_uint in Hz.
  destruct (Pos.to_uint p); try congruence; exact Hz.
Qed.

(** What the code writes after [M] is the number zero-padded to two digits
    in the sense of the spec. *)
Lemma padStart_two_digit_padded (n : Z) :
  0 < n -> two_digit_padded n (JS.padStart 2 "0" (JS.String_ (JS.Int n))).
Proof.
  intros Hn.
  destruct (String_digits n) as (Hall & Hne & Hval); [lia|].
  pose proof (String_no_leading_zero n Hn) as Hlead.
  unfold two_digit_padded, JS.padStart.
  rewrite (proj1 (repeat_zero_digits _ _)), (proj2 (repeat_zero_digits _ _)).
  split; [exact Hall|]. split; [exact Hval|].
  destruct (JS.String_ (JS.Int n)) as [|c1 [|c2 rest]]; [congruence | now left |].
  cbn [String.length Nat.sub JS.repeat_char append].
  destruct rest as [|c3 rest]; [now left|].
  right. split; [cbn; lia | exact Hlead].
Qed.

(** X30.  Where the code follows the rule of the spec.  For a category
    identifier of three characters whose machines carry identifiers
    that are well formed ([C##M] and 1 to 15 digits) or have no number
    after the fourth character, [generateMachineId] returns the next machine
    identifier of the spec: the maximum numeric suffix in the category, plus
    one, zero-padded to two digits. *)
Theorem generateMachineId_max_plus_one (cat : string) (existing : list Machine.t) :
  String.length cat = 3%nat ->
  (forall m, In m existing -> Machine.machine_type_id m = cat ->
             well_formed_id cat (Machine.id m) \/ non_numeric_id (Machine.id m)) ->
  is_next_machine_id cat existing (generateMachineId existing cat).
Proof.
  intros Hlen Hwf. rewrite (maxMachineNum_is_max_suffix cat existing Hlen Hwf).
  eexists. split; [reflexivity|].
  apply padStart_two_digit_padded.
  pose proof (max_suffix_nonneg cat existing). lia.
Qed.

(** Scenario A: no machine in [C01] gives [C01M01], and with that one the
    next is [C01M02]. *)
Lemma generateMachineId_scenario_A :
  String.length "C01" = 3%nat
  /\ (forall m, In m [machine_of "C01M01" "C01"] ->
                Machine.machine_type_id m = "C01" ->
                well_formed_id "C01" (Machine.id m) \/ non_numeric_id (Machine.id m))
  /\ is_next_machine_id "C01" [] (generateMachineId [] "C01")
  /\ generateMachineId [] "C01" = "C01M01"
  /\ is_next_machine_id "C01" [machine_of "C01M01" "C01"]
       (generateMachineId [machine_of "C01M01" "C01"] "C01")
  /\ generateMachineId [machine_of "C01M01" "C01"] "C01" = "C01M02".
Proof.
  assert (Hwf : forall m, In m [machine_of "C01M01" "C01"] ->
                          Machine.machine_type_id m = "C01" ->
                          well_formed_id "C01" (Machine.id m)
                          \/ non_numeric_id (Machine.id m)).
  { intros m [<- | []] _. left. exists "01".
    repeat split; [discriminate | cbn; lia]. }
  split; [reflexivity|]. split; [exact Hwf|]. split.
  - apply (generateMachineId_max_plus_one "C01" [] eq_refl). intros m [].
  - split; [reflexivity|]. split; [|reflexivity].
    exact (generateMachineId_max_plus_one "C01" _ eq_refl Hwf).
Defined.

(** C5.  The failing input.  Category [C100], which [generateMachineTypeId]
    hands out after [C99], has four characters.  With machine [C100M01] in
    it the maximum suffix is 1 and the next identifier of the spec is
    [C100M02]; the code reads the text after the fourth character, [M01],
    which is no number, and returns [C100M01], the identifier that the
    machine already carries. *)
Theorem generateMachineId_four_character_category :
  generateMachineTypeId [MachineType.mk "C99" "lathe" 2] = "C100"
  /\ max_suffix "C100" [machine_of "C100M01" "C100"] = 1
  /\ is_next_machine_id "C100" [machine_of "C100M01" "C100"] "C100M02"
  /\ generateMachineId [machine_of "C100M01" "C100"] "C100" = "C100M01"
  /\ ~ is_next_machine_id "C100" [machine_of "C100M01" "C100"]
         (generateMachineId [machine_of "C100M01" "C100"] "C100")
  /\ In (generateMachineId [machine_of "C100M01" "C100"] "C100")
       (map Machine.id [machine_of "C100M01" "C100"]).
Proof.
  split; [reflexivity|]. split; [reflexivity|]. split.
  { exists "02". split; [reflexivity|]. repeat split. now left. }
  split; [reflexivity|]. split; [|now left].
  intros (d & Hid & _ & Hval & _).
  change (generateMachineId [machine_of "C100M01" "C100"] "C100")
    with ("C100" ++ "M" ++ "01") in Hid.
  cbn [append] in Hid. injection Hid as <-. discriminate Hval.
Qed.

(** C6, as amended.  [generateMachineId] has no error path.  For every
    category identifier and every list of machines, when the largest number
    it reads from the identifiers of the category's machines is 99 it
    returns the category identifier followed by [M100], three digits wide.
    That is the case in particular for a category of three characters whose
    machine identifiers are well formed or carry no number and whose maximum
    numeric suffix is 99. *)
Theorem generateMachineId_past_99 (cat : string) (existing : list Machine.t) :
  (running_max (map machine_number (in_category cat existing)) 0 = 99 ->
   generateMachineId existing cat = cat ++ "M100")
  /\ (String.length cat = 3%nat ->
      (forall m, In m existing -> Machine.machine_type_id m = cat ->
                 well_formed_id cat (Machine.id m)
                 \/ non_numeric_id (Machine.id m)) ->
      max_suffix cat existing = 99 ->
      generateMachineId existing cat = cat ++ "M100").
Proof.
  split.
  - intros Hmax. rewrite generateMachineId_running_max, Hmax. reflexivity.
  - intros Hlen Hwf Hmax.
    rewrite (maxMachineNum_is_max_suffix cat existing Hlen Hwf), Hmax.
    reflexivity.
Qed.

Lemma generateMachineId_past_99_witness :
  running_max (map machine_number (in_category "C01" [machine_of "C01M99" "C01"])) 0
  = 99
  /\ String.length "C01" = 3%nat
  /\ (forall m, In m [machine_of "C01M99" "C01"] ->
                Machine.machine_type_id m = "C01" ->
                well_formed_id "C01" (Machine.id m) \/ non_numeric_id (Machine.id m))
  /\ max_suffix "C01" [machine_of "C01M99" "C01"] = 99
  /\ generateMachineId [machine_of "C01M99" "C01"] "C01" = "C01M100".
Proof.
  assert (Hwf : forall m, In m [machine_of "C01M99" "C01"] ->
                          Machine.machine_type_id m = "C01" ->
                          well_formed_id "C01" (Machine.id m)
                          \/ non_numeric_id (Machine.id m)).
  { intros m [<- | []] _. left. exists "99".
    repeat split; [discriminate | cbn; lia]. }
  assert (Hread : running_max
                    (map machine_number
                       (in_category "C01" [machine_of "C01M99" "C01"])) 0 = 99)
    by reflexivity.
  split; [exact Hread|]. split; [reflexivity|]. split; [exact Hwf|].
  split; [reflexivity|].
  exact (proj1 (generateMachineId_past_99 "C01" [machine_of "C01M99" "C01"]) Hread).
Defined.

(** With the machines [C01M01] to [C01M99] in place, the hundredth
    identifier is produced, three digits wide; no error is signalled. *)
Lemma generateMachineId_hundredth_machine :
  List.length ninety_nine_machines = 99%nat
  /\ max_suffix "C01" ninety_nine_machines = 99
  /\ generateMachineId ninety_nine_machines "C01" = "C01M100"
  /\ String.length (JS.substring 4 (generateMachineId ninety_nine_machines "C01"))
     = 3%nat.
Proof. vm_compute. repeat split. Qed.

(* ================================================================= *)
(** ** The booking provider, for every store *)

Ltac view_is_same := unfold same_view; reflexivity.

Section BookingProviderFacts.
Context {DB : Type} `{DataStore DB}.

(** X7.  [loadBookings] never throws and always ends with the loading flag
    down.  The snapshot becomes the rows read when the read gives data and is
    kept otherwise; the state of the other providers is not touched. *)
Theorem loadBookings_always_returns (w : World DB) :
  let w' := snd (loadBookings w) in
  fst (loadBookings w) = Return tt
  /\ bookings_isLoading w' = false
  /\ bookings w'
     = match data_of (fst (exec (SelectBookings AllBookings) (store w))) with
       | Some rows => rows
       | None => bookings w
       end
  /\ same_view (with_bookings (bookings w)
                  (with_bookings_isLoading (bookings_isLoading w) w')) w.
Proof.
  unfold loadBookings. run_body. cbn [store with_bookings_isLoading].
  destruct (exec (SelectBookings AllBookings) (store w)) as [[[rows|err]|e] db'];
    repeat split.
Qed.

(** X8.  [getBookingsByUser] and [getBookingsByMachine] never throw: they
    return the rows the store gives, or the empty list when it gives none,
    and leave the state of every provider as it was. *)
Theorem getBookings_always_return (w : World DB) (key : string) :
  (fst (getBookingsByUser key w)
   = Return (match data_of (fst (exec (SelectBookings (ByUser key)) (store w))) with
             | Some rows => rows
             | None => []
             end)
   /\ same_view (snd (getBookingsByUser key w)) w)
  /\ (fst (getBookingsByMachine key w)
      = Return (match data_of (fst (exec (SelectBookings (ByMachine key)) (store w)))
                with
                | Some rows => rows
                | None => []
                end)
      /\ same_view (snd (getBookingsByMachine key w)) w).
Proof.
  split.
  - unfold getBookingsByUser. run_body.
    destruct (exec (SelectBookings (ByUser key)) (store w)) as [[[rows|err]|e] db'];
      split; reflexivity.
  - unfold getBookingsByMachine. run_body.
    destruct (exec (SelectBookings (ByMachine key)) (store w))
      as [[[rows|err]|e] db']; split; reflexivity.
Qed.

Lemma nth_error_map_if {A : Type} (p : A -> bool) (f : A -> A) (l : list A) :
  forall n a, nth_error l n = Some a -> p a = false ->
              nth_error (map (fun x => if p x then f x else x) l) n = Some a.
Proof.
  induction l as [|x l IH]; intros [|n] a Hn Hp; cbn in *; try discriminate.
  - injection Hn as ->. now rewrite Hp.
  - now apply IH.
Qed.

(** X9.  Whatever the update and whatever the store answers,
    [updateBooking] keeps the number of bookings in the snapshot, and every
    booking with another identifier stays where it is, unchanged. *)
Theorem updateBooking_touches_only_its_id
  (w : World DB) (id : string) (updates : Booking.patch) :
  let w' := snd (updateBooking id updates w) in
  List.length (bookings w') = List.length (bookings w)
  /\ forall n b, nth_error (bookings w) n = Some b -> Booking.id b <> id ->
                 nth_error (bookings w') n = Some b.
Proof.
  unfold updateBooking. run_body.
  destruct (exec (UpdateBooking updates id) (store w)) as [[[[]|err]|e] db'];
    cbn [snd bookings with_bookings with_store logged with_console];
    (split; [|intros n b Hn Hid]); try reflexivity; try exact Hn.
  - apply length_map.
  - apply (nth_error_map_if (fun b => (Booking.id b =? id)%string)); [exact Hn|].
    now apply String.eqb_neq.
Qed.

(** X10.  [deleteBooking] never adds a booking to the snapshot and never
    removes one with another identifier.  When it returns, no booking with
    the identifier is left; when no booking has the identifier, or when it
    throws, the snapshot is as before. *)
Theorem deleteBooking_removes_only_its_id (w : World DB) (id : string) :
  let w' := snd (deleteBooking id w) in
  (forall b, In b (bookings w') -> In b (bookings w))
  /\ (forall b, In b (bookings w) -> Booking.id b <> id -> In b (bookings w'))
  /\ (fst (deleteBooking id w) = Return tt ->
      forall b, In b (bookings w') -> Booking.id b <> id)
  /\ ((forall b, In b (bookings w) -> Booking.id b <> id) ->
      bookings w' = bookings w)
  /\ (forall e, fst (deleteBooking id w) = Throw e -> bookings w' = bookings w).
Proof.
  unfold deleteBooking. run_body.
  destruct (exec (DeleteBooking id) (store w)) as [[[[]|err]|e] db'];
    cbn [fst snd bookings with_bookings with_store logged with_console];
    repeat split; try (intros; assumption); try discriminate; try reflexivity.
  - intros b Hin. now apply filter_In in Hin.
  - intros b Hin Hid. apply filter_In. split; [exact Hin|].
    apply negb_true_iff. now apply String.eqb_neq.
  - intros _ b Hin. apply filter_In in Hin as [_ Hid].
    apply negb_true_iff in Hid. now apply String.eqb_neq.
  - intros Habsent. apply forallb_filter_id. apply forallb_forall.
    intros b Hin. apply negb_true_iff, String.eqb_neq. now apply Habsent.
Qed.

(** X11.  Creating a booking and then deleting it by the identifier it was
    given brings the snapshot back, provided no booking of the snapshot
    already had that identifier (the store accepting both requests). *)
Theorem add_then_delete_restores_snapshot
  (w : World DB) (bookingData : Booking.data) (newBooking : Booking.t)
  (db1 db2 : DB) :
  exec (InsertBooking bookingData) (store w) = (Resolved (Data newBooking), db1) ->
  exec (DeleteBooking (Booking.id newBooking)) db1 = (Resolved (Data tt), db2) ->
  (forall b, In b (bookings w) -> Booking.id b <> Booking.id newBooking) ->
  let w1 := snd (addBooking bookingData w) in
  fst (addBooking bookingData w) = Return newBooking
  /\ fst (deleteBooking (Booking.id newBooking) w1) = Return tt
  /\ bookings (snd (deleteBooking (Booking.id newBooking) w1)) = bookings w.
Proof.
  intros Hadd Hdel Hfresh. unfold addBooking, deleteBooking. run_body.
  rewrite Hadd. cbn [fst snd store with_store with_bookings]. rewrite Hdel.
  cbn [fst snd bookings with_bookings with_store filter].
  rewrite String.eqb_refl. cbn [negb].
  repeat split. apply forallb_filter_id, forallb_forall.
  intros b Hin. apply negb_true_iff, String.eqb_neq. now apply Hfresh.
Qed.
End BookingProviderFacts.

Lemma deleteBooking_witness :
  fst (deleteBooking "B1" (scenario_world [])) = Return tt
  /\ bookings (snd (deleteBooking "B1" (scenario_world []))) = []
  /\ (forall b, In b (bookings (scenario_world [])) -> Booking.id b <> "B9")
  /\ bookings (snd (deleteBooking "B9" (scenario_world []))) = [first_booking].
Proof.
  assert (Habsent : forall b, In b (bookings (scenario_world [])) ->
                              Booking.id b <> "B9")
    by (intros b [<- | []]; discriminate).
  split; [reflexivity|]. split; [reflexivity|]. split; [exact Habsent|].
  destruct (deleteBooking_removes_only_its_id (scenario_world []) "B9")
    as (_ & _ & _ & Hnoop & _).
  exact (Hnoop Habsent).
Defined.

Lemma add_then_delete_witness :
  exec (InsertBooking second_request) (store (scenario_world []))
  = (Resolved (Data second_booking),
     snd (exec (InsertBooking second_request) (store (scenario_world []))))
  /\ (forall b, In b (bookings (scenario_world [])) ->
                Booking.id b <> Booking.id second_booking)
  /\ bookings (snd (deleteBooking "B2"
                      (snd (addBooking second_request (scenario_world [])))))
     = [first_booking].
Proof.
  assert (Hfresh : forall b, In b (bookings (scenario_world [])) ->
                             Booking.id b <> Booking.id second_booking)
    by (intros b [<- | []]; discriminate).
  split; [reflexivity|]. split; [exact Hfresh|].
  exact (proj2 (proj2 (add_then_delete_restores_snapshot
                         (scenario_world []) second_request second_booking
                         _ _ eq_refl eq_refl Hfresh))).
Defined.

(* ================================================================= *)
(** ** The machine provider, for every store *)

Section MachineProviderFacts.
Context {DB : Type} `{DataStore DB} `{FurtherStore DB}.

(** X12.  [loadData] never throws and always ends with the loading flag
    down; it leaves the user and the bookings alone. *)
Theorem loadData_always_returns (w : World DB) :
  let w' := snd (loadData w) in
  fst (loadData w) = Return tt
  /\ machines_isLoading w' = false
  /\ user w' = user w
  /\ bookings w' = bookings w
  /\ bookings_isLoading w' = bookings_isLoading w.
Proof.
  unfold loadData. run_body. cbn [store with_machines_isLoading].
  destruct (exec SelectMachineTypes (store w)) as [[[types|err]|e] db1];
    cbn [store with_store with_machineTypes logged with_console];
    try (repeat split; fail);
    (destruct (exec SelectMachines db1) as [[[ms|err2]|e2] db2];
     cbn [store with_store with_machines logged with_console];
     try (repeat split; fail);
     (destruct (exec SelectAuditLogs db2) as [[[logs|err3]|e3] db3];
      repeat split)).
Qed.

(** X13.  The three reads of [loadData] stand each for itself: when none of
    the calls throws, each of the three lists is replaced by the rows read
    for it if its own read gave data, and kept if its own read reported an
    error, whatever happened to the other two. *)
Theorem loadData_lists_are_independent (w : World DB) :
  let r1 := exec SelectMachineTypes (store w) in
  let r2 := exec SelectMachines (snd r1) in
  let r3 := exec SelectAuditLogs (snd r2) in
  let w' := snd (loadData w) in
  (forall e, fst r1 <> Rejected e) ->
  (forall e, fst r2 <> Rejected e) ->
  (forall e, fst r3 <> Rejected e) ->
  machineTypes w' = match data_of (fst r1) with
                    | Some rows => rows
                    | None => machineTypes w
                    end
  /\ machines w' = match data_of (fst r2) with
                   | Some rows => rows
                   | None => machines w
                   end
  /\ auditLogs w' = match data_of (fst r3) with
                    | Some rows => rows
                    | None => auditLogs w
                    end
  /\ store w' = snd r3.
Proof.
  unfold loadData. run_body. cbn [store with_machines_isLoading].
  destruct (exec SelectMachineTypes (store w)) as [[[types|err]|e] db1];
    cbn [fst snd store with_store with_machineTypes logged with_console];
    intros N1; try (exfalso; exact (N1 _ eq_refl));
    (destruct (exec SelectMachines db1) as [[[ms|err2]|e2] db2];
     cbn [fst snd store with_store with_machines logged with_console];
     intros N2; try (exfalso; exact (N2 _ eq_refl));
     (destruct (exec SelectAuditLogs db2) as [[[logs|err3]|e3] db3];
      cbn [fst snd]; intros N3; try (exfalso; exact (N3 _ eq_refl));
      repeat split)).
Qed.

(** X14.  A call that throws ends the refresh on the spot.  If the read of
    the categories throws, none of the three lists changes and the store has
    seen that one request only; if the read of the machines throws, the
    categories are as their own read left them and machines and audit
    entries are unchanged. *)
Theorem loadData_throw_ends_refresh (w : World DB) (e : Error) :
  let r1 := exec SelectMachineTypes (store w) in
  let r2 := exec SelectMachines (snd r1) in
  let w' := snd (loadData w) in
  (fst r1 = Rejected e ->
   machineTypes w' = machineTypes w /\ machines w' = machines w
   /\ auditLogs w' = auditLogs w /\ store w' = snd r1)
  /\ ((forall e1, fst r1 <> Rejected e1) -> fst r2 = Rejected e ->
      machineTypes w' = match data_of (fst r1) with
                        | Some rows => rows
                        | None => machineTypes w
                        end
      /\ machines w' = machines w /\ auditLogs w' = auditLogs w
      /\ store w' = snd r2).
Proof.
  unfold loadData. run_body. cbn [store with_machines_isLoading].
  destruct (exec SelectMachineTypes (store w)) as [[[types|err]|e1] db1];
    cbn [fst snd store with_store with_machineTypes logged with_console];
    (split; [intros Hr1; try discriminate Hr1 | intros N1 Hr2]);
    try (exfalso; exact (N1 _ eq_refl)); try (repeat split; fail);
    (destruct (exec SelectMachines db1) as [[[ms|err2]|e2] db2];
     cbn [fst snd] in Hr2; try discriminate Hr2; repeat split).
Qed.
End MachineProviderFacts.

Lemma loadData_lists_witness :
  (forall e, fst (exec SelectMachineTypes (store (scenario_world [Refuse outage])))
             <> Rejected e)
  /\ machineTypes (snd (loadData (scenario_world [Refuse outage]))) = [printers]
  /\ machines (snd (loadData (scenario_world [Refuse outage])))
     = [machine_of "C01M01" "C01"].
Proof.
  assert (N1 : forall e,
             fst (exec SelectMachineTypes (store (scenario_world [Refuse outage])))
             <> Rejected e) by (intros e; discriminate).
  assert (N2 : forall e,
             fst (exec SelectMachines
                    (snd (exec SelectMachineTypes
                            (store (scenario_world [Refuse outage])))))
             <> Rejected e) by (intros e; discriminate).
  assert (N3 : forall e,
             fst (exec SelectAuditLogs
                    (snd (exec SelectMachines
                            (snd (exec SelectMachineTypes
                                    (store (scenario_world [Refuse outage])))))))
             <> Rejected e) by (intros e; discriminate).
  destruct (loadData_lists_are_independent (scenario_world [Refuse outage])
              N1 N2 N3) as (Htypes & Hmachines & _).
  split; [exact N1|]. split; [exact Htypes | exact Hmachines].
Defined.

Lemma loadData_throw_witness :
  fst (exec SelectMachineTypes (store (scenario_world [Crash outage])))
  = Rejected outage
  /\ machines (snd (loadData (scenario_world [Crash outage])))
     = machines (scenario_world [Crash outage])
  /\ RowStore.faults (store (snd (loadData (scenario_world [Crash outage])))) = [].
Proof.
  assert (Hr1 : fst (exec SelectMachineTypes (store (scenario_world [Crash outage])))
                = Rejected outage) by reflexivity.
  destruct (proj1 (loadData_throw_ends_refresh (scenario_world [Crash outage]) outage)
              Hr1) as (_ & Hmachines & _ & Hstore).
  split; [exact Hr1|]. split; [exact Hmachines|]. now rewrite Hstore.
Defined.

(* ================================================================= *)
(** ** Looking machines up *)

Lemma find_map_if {A : Type} (key : A -> string) (f : A -> A) (id id' : string)
  (l : list A) :
  (forall a, key (f a) = key a) ->
  find (fun a => (key a =? id')%string)
    (map (fun a => if (key a =? id)%string then f a else a) l)
  = option_map (fun a => if (key a =? id)%string then f a else a)
      (find (fun a => (key a =? id')%string) l).
Proof.
  intros Hkey. induction l as [|a l IH]; cbn; [reflexivity|].
  destruct (key a =? id)%string eqn:Hid; [rewrite Hkey|];
    (destruct (key a =? id')%string;
     [cbn [option_map]; now rewrite Hid | exact IH]).
Qed.

Lemma find_filter_others {A : Type} (key : A -> string) (id id' : string)
  (l : list A) :
  find (fun a => (key a =? id')%string)
    (filter (fun a => negb (key a =? id)%string) l)
  = if (id' =? id)%string then None
    else find (fun a => (key a =? id')%string) l.
Proof.
  induction l as [|a l IH]; cbn; [now destruct (id' =? id)%string|].
  destruct (String.eqb_spec (key a) id) as [Ha|Ha]; cbn.
  - rewrite IH. destruct (String.eqb_spec id' id) as [->|Hne]; [reflexivity|].
    destruct (String.eqb_spec (key a) id'); [congruence | reflexivity].
  - destruct (String.eqb_spec (key a) id') as [Ha'|Ha']; [|exact IH].
    destruct (String.eqb_spec id' id); [congruence | reflexivity].
Qed.

Lemma find_append {A : Type} (p : A -> bool) (l l' : list A) :
  find p (l ++ l')
  = match find p l with
    | Some a => Some a
    | None => find p l'
    end.
Proof.
  induction l as [|a l IH]; cbn; [reflexivity|]. now destruct (p a).
Qed.

(** A machine held in a category of three characters does not carry the
    identifier generated from the list that holds it. *)
Lemma machine_id_not_regenerated (ms : list Machine.t) (cat : string) (m : Machine.t) :
  String.length cat = 3%nat ->
  In m ms -> Machine.machine_type_id m = cat ->
  Machine.id m <> generateMachineId ms cat.
Proof.
  intros Hlen Hin Hcat Hid.
  pose proof (generated_machine_number ms cat m Hlen Hid) as Hnum.
  assert (Hle : running_max (map machine_number (in_category cat ms)) 0 + 1
                <= running_max (map machine_number (in_category cat ms)) 0).
  { apply running_max_ge_elem. rewrite <- Hnum. apply in_map.
    apply filter_In. split; [exact Hin|]. now apply String.eqb_eq. }
  lia.
Qed.

Lemma type_id_not_regenerated (types : list MachineType.t) (t : MachineType.t) :
  In t types -> MachineType.id t <> generateMachineTypeId types.
Proof.
  intros Hin Hid.
  pose proof (generated_type_number types t Hid) as Hnum.
  assert (Hle : running_max (map type_number types) 0 + 1
                <= running_max (map type_number types) 0).
  { apply running_max_ge_elem. rewrite <- Hnum. now apply in_map. }
  lia.
Qed.

Section Lookup.
Context {DB : Type} `{DataStore DB} `{FurtherStore DB}.

(** X15.  After [deleteMachine] has returned, [getMachineById] no longer
    finds the identifier; every other identifier is looked up as before.
    When [deleteMachine] throws, every look-up is as before. *)
Theorem deleteMachine_then_lookup (w : World DB) (id id' : string) :
  let w' := snd (deleteMachine id w) in
  (fst (deleteMachine id w) = Return tt ->
   getMachineById (machines w') id = None)
  /\ (id' <> id ->
      getMachineById (machines w') id' = getMachineById (machines w) id')
  /\ (forall e, fst (deleteMachine id w) = Throw e ->
                getMachineById (machines w') id' = getMachineById (machines w) id').
Proof.
  unfold deleteMachine, getMachineById. run_body.
  destruct (exec (DeleteMachine id) (store w)) as [[[[]|err]|e] db'];
    cbn [fst snd machines with_machines with_store logged with_console];
    repeat split; try discriminate; try reflexivity.
  - intros _. rewrite (find_filter_others Machine.id).
    now rewrite String.eqb_refl.
  - intros Hne. rewrite (find_filter_others Machine.id).
    now rewrite (proj2 (String.eqb_neq _ _) Hne).
Qed.

(** X16.  After [addMachine] has returned a machine, its identifier is
    found by [getMachineById]: it finds the new machine when the snapshot
    held none with that identifier, and otherwise still the one that was
    there first.  Other identifiers are looked up as before. *)
Theorem addMachine_then_lookup
  (w : World DB) (machines_at_render : list Machine.t)
  (machineData : MachineData) (newMachine : Machine.t) (id' : string) :
  fst (addMachine machines_at_render machineData w) = Return newMachine ->
  let w' := snd (addMachine machines_at_render machineData w) in
  getMachineById (machines w') (Machine.id newMachine)
  = match getMachineById (machines w) (Machine.id newMachine) with
    | Some earlier => Some earlier
    | None => Some newMachine
    end
  /\ (id' <> Machine.id newMachine ->
      getMachineById (machines w') id' = getMachineById (machines w) id').
Proof.
  unfold addMachine, getMachineById. run_body.
  destruct (exec (InsertMachine machineData
                    (generateMachineId machines_at_render
                       (md_machine_type_id machineData))) (store w))
    as [[[m|err]|e] db'];
    cbn [fst snd machines with_machines with_store logged with_console];
    intros Hret; try discriminate Hret. injection Hret as ->.
  split.
  - rewrite find_append.
    destruct (find _ (machines w)); [reflexivity|].
    cbn [find]. now rewrite String.eqb_refl.
  - intros Hne. rewrite find_append.
    destruct (find _ (machines w)); [reflexivity|].
    cbn [find].
    destruct (String.eqb_spec (Machine.id newMachine) id'); [congruence|reflexivity].
Qed.

(** X17.  After [updateMachine] has returned, with an update that does not
    rename the machine, [getMachineById] finds under the identifier the
    machine it found before with the update merged in, and finds every other
    identifier as before. *)
Theorem updateMachine_then_lookup
  (w : World DB) (id id' : string) (updates : MachinePatch) :
  mp_id updates = None ->
  fst (updateMachine id updates w) = Return tt ->
  let w' := snd (updateMachine id updates w) in
  getMachineById (machines w') id
  = option_map (fun m => merge_machine m updates) (getMachineById (machines w) id)
  /\ (id' <> id ->
      getMachineById (machines w') id' = getMachineById (machines w) id').
Proof.
  intros Hkeep. unfold updateMachine, getMachineById. run_body.
  unfold await_further.
  destruct (exec_further (UpdateMachine updates id) (store w))
    as [[[[]|err]|e] db'];
    cbn [fst snd machines with_machines with_store logged with_console];
    intros Hret; try discriminate Hret.
  assert (Hid : forall m, Machine.id (merge_machine m updates) = Machine.id m).
  { intros m. unfold merge_machine. cbn. now rewrite Hkeep. }
  split.
  - rewrite (find_map_if Machine.id _ id id _ Hid).
    destruct (find _ (machines w)) as [m|] eqn:Hfind; [|reflexivity].
    apply find_some in Hfind as [_ Hm]. cbn [option_map]. now rewrite Hm.
  - intros Hne. rewrite (find_map_if Machine.id _ id id' _ Hid).
    destruct (find _ (machines w)) as [m|] eqn:Hfind; [|reflexivity].
    apply find_some in Hfind as [_ Hm]. cbn [option_map].
    apply String.eqb_eq in Hm.
    destruct (String.eqb_spec (Machine.id m) id); [congruence | reflexivity].
Qed.

(** X18.  [addAuditLog] changes nothing in the providers: the entry is sent
    to the store and the local list of audit entries is left as it is, so
    the new entry shows only after a refresh.  It throws exactly when the
    insert fails, with the store's error. *)
Theorem addAuditLog_keeps_state (w : World DB) (logData : AuditLogData) :
  same_view (snd (addAuditLog logData w)) w
  /\ forall e, fst (addAuditLog logData w) = Throw e
               <-> failure (fst (exec_further (InsertAuditLog logData) (store w)))
                   = Some e.
Proof.
  unfold addAuditLog. run_body. unfold await_further.
  destruct (exec_further (InsertAuditLog logData) (store w))
    as [[[[]|err]|e] db']; cbn [fst snd failure];
    (split; [reflexivity|]); intros e'; split; intros Heq;
    try discriminate Heq; injection Heq as ->; reflexivity.
Qed.

(** X19.  After [addMachine] has stored a machine under the identifier it
    asked for, in a category of three characters, the identifier generated
    from the new snapshot for that category is another one, the numbers read
    from the machines being safe integers.  This holds whichever render
    created the function. *)
Theorem addMachine_next_identifier_differs
  (w : World DB) (machines_at_render : list Machine.t)
  (machineData : MachineData) (newMachine : Machine.t) :
  let cat := md_machine_type_id machineData in
  String.length cat = 3%nat ->
  (forall m, In m (machines w) -> Machine.machine_type_id m = cat ->
             safe (machine_number m)) ->
  (forall m, In m machines_at_render -> Machine.machine_type_id m = cat ->
             safe (machine_number m)) ->
  fst (addMachine machines_at_render machineData w) = Return newMachine ->
  Machine.id newMachine = generateMachineId machines_at_render cat ->
  Machine.machine_type_id newMachine = cat ->
  generateMachineId (machines (snd (addMachine machines_at_render machineData w)))
    cat
  <> Machine.id newMachine.
Proof.
  intros cat Hlen _ _. subst cat. unfold addMachine. run_body.
  destruct (exec (InsertMachine machineData
                    (generateMachineId machines_at_render
                       (md_machine_type_id machineData))) (store w))
    as [[[m|err]|e] db'];
    cbn [fst snd machines with_machines with_store logged with_console];
    intros Hret; try discriminate Hret. injection Hret as ->.
  intros _ Hcat Hsame. symmetry in Hsame. revert Hsame.
  apply (machine_id_not_regenerated _ _ newMachine Hlen); [|exact Hcat].
  apply in_or_app. right. now left.
Qed.
End Lookup.

Lemma deleteMachine_then_lookup_witness :
  fst (deleteMachine "C01M01" (scenario_world [])) = Return tt
  /\ getMachineById (machines (scenario_world [])) "C01M01"
     = Some (machine_of "C01M01" "C01")
  /\ getMachineById (machines (snd (deleteMachine "C01M01" (scenario_world []))))
       "C01M01" = None.
Proof.
  assert (Hret : fst (deleteMachine "C01M01" (scenario_world [])) = Return tt)
    by reflexivity.
  split; [exact Hret|]. split; [reflexivity|].
  exact (proj1 (deleteMachine_then_lookup (scenario_world []) "C01M01" "C01M01")
           Hret).
Defined.

Lemma addMachine_then_lookup_witness :
  fst (addMachine (machines (scenario_world [])) second_printer (scenario_world []))
  = Return (Machine.mk "C01M02" "Prusa" "C01" available 2)
  /\ getMachineById
       (machines (snd (addMachine (machines (scenario_world [])) second_printer
                         (scenario_world []))))
       "C01M02"
     = Some (Machine.mk "C01M02" "Prusa" "C01" available 2).
Proof.
  assert (Hret : fst (addMachine (machines (scenario_world [])) second_printer
                        (scenario_world []))
                 = Return (Machine.mk "C01M02" "Prusa" "C01" available 2))
    by reflexivity.
  split; [exact Hret|].
  exact (proj1 (addMachine_then_lookup (scenario_world [])
                  (machines (scenario_world [])) second_printer _
                  "C01M01" Hret)).
Defined.

Lemma updateMachine_then_lookup_witness :
  mp_id to_maintenance = None
  /\ fst (updateMachine "C01M01" to_maintenance (scenario_world [])) = Return tt
  /\ option_map Machine.status
       (getMachineById
          (machines (snd (updateMachine "C01M01" to_maintenance (scenario_world []))))
          "C01M01")
     = Some maintenance.
Proof.
  assert (Hret : fst (updateMachine "C01M01" to_maintenance (scenario_world []))
                 = Return tt) by reflexivity.
  split; [reflexivity|]. split; [exact Hret|].
  rewrite (proj1 (updateMachine_then_lookup (scenario_world []) "C01M01" "C01M01"
                    to_maintenance eq_refl Hret)).
  reflexivity.
Defined.

Lemma addMachine_next_identifier_witness :
  String.length (md_machine_type_id second_printer) = 3%nat
  /\ (forall m, In m (machines (scenario_world [])) ->
                Machine.machine_type_id m = md_machine_type_id second_printer ->
                safe (machine_number m))
  /\ fst (addMachine (machines (scenario_world [])) second_printer (scenario_world []))
     = Return (Machine.mk "C01M02" "Prusa" "C01" available 2)
  /\ generateMachineId
       (machines (snd (addMachine (machines (scenario_world [])) second_printer
                         (scenario_world [])))) "C01"
     <> "C01M02".
Proof.
  assert (Hret : fst (addMachine (machines (scenario_world [])) second_printer
                        (scenario_world []))
                 = Return (Machine.mk "C01M02" "Prusa" "C01" available 2))
    by reflexivity.
  split; [reflexivity|]. split; [exact scenario_machines_safe|].
  split; [exact Hret|].
  exact (addMachine_next_identifier_differs (scenario_world [])
           (machines (scenario_world [])) second_printer _
           eq_refl scenario_machines_safe scenario_machines_safe Hret
           eq_refl eq_refl).
Defined.

(* ================================================================= *)
(** ** The auth provider, for every store *)

Section AuthProviderFacts.
Context {DB : Type} `{DataStore DB} `{FurtherStore DB}.

(** X20.  [updateUser] looks at the user that the render creating the
    function saw, not at the state when it is called.  It changes the
    signed-in user only when that captured user has the identifier being
    updated and the store has accepted the update, and then it sets the
    signed-in user to the captured user with the update merged in; in every
    other case (no captured user, another identifier, the store failing)
    the signed-in user stays as it is.  Nothing else in the providers
    changes. *)
Theorem updateUser_local_user
  (w : World DB) (user_at_render : option User.t) (id : string)
  (updates : User.patch) :
  let w' := snd (updateUser user_at_render id updates w) in
  user w'
  = match user_at_render with
    | Some u =>
        if (User.id u =? id)%string
        then match failure (fst (exec (UpdateProfile updates id) (store w))) with
             | None => Some (User.merge u updates)
             | Some _ => user w
             end
        else user w
    | None => user w
    end
  /\ same_view (with_user (user w) w') w.
Proof.
  unfold updateUser, same_view. run_body.
  destruct w as [db u0 bs bl ms ts logs ml c]. cbn [store user].
  destruct (exec (UpdateProfile updates id) db) as [[[[]|err]|e] db'];
    cbn [fst snd failure];
    (destruct user_at_render as [u|]; cbn;
     [destruct (User.id u =? id)%string eqn:Hid; cbn; rewrite ?Hid|]);
    split; reflexivity.
Qed.

(** X21.  [loadUserProfile] and [getUserById] never throw: they return the
    profile the store gives and [null] when the read fails either way, and
    they change nothing in the providers. *)
Theorem profile_reads_always_return (w : World DB) (id : string) :
  (fst (loadUserProfile id w)
   = Return (data_of (fst (exec_further (SelectProfile id) (store w))))
   /\ same_view (snd (loadUserProfile id w)) w)
  /\ (fst (getUserById id w)
      = Return (data_of (fst (exec_further (SelectProfile id) (store w))))
      /\ same_view (snd (getUserById id w)) w).
Proof.
  split.
  - unfold loadUserProfile. run_body. unfold await_further.
    destruct (exec_further (SelectProfile id) (store w)) as [[[u|err]|e] db'];
      split; reflexivity.
  - unfold getUserById. run_body. unfold await_further.
    destruct (exec_further (SelectProfile id) (store w)) as [[[u|err]|e] db'];
      split; reflexivity.
Qed.

(** X22.  [login] never throws.  It returns [true] exactly when signing in
    gave a user; when it returns [false] the signed-in user and everything
    else in the providers is as before. *)
Theorem login_result (w : World DB) (email password : string) :
  exists ok : bool,
    fst (login email password w) = Return ok
    /\ (ok = true
        <-> exists userId,
            data_of (fst (exec_further (SignInWithPassword email password) (store w)))
            = Some (Some userId))
    /\ (ok = false -> same_view (snd (login email password w)) w).
Proof.
  unfold login, loadUserProfile. run_body. unfold await_further.
  destruct (exec_further (SignInWithPassword email password) (store w))
    as [[[[userId|]|err]|e] db1]; cbn [fst snd data_of store with_store].
  - destruct (exec_further (SelectProfile userId) db1) as [[[u|err]|e] db2];
      exists true; (split; [reflexivity|]);
      (split; [split; [intros _; now exists userId | reflexivity]
              | discriminate]).
  - exists false. split; [reflexivity|]. split; [|reflexivity].
    split; [discriminate | intros [u Hu]; discriminate Hu].
  - exists false. split; [reflexivity|]. split; [|reflexivity].
    split; [discriminate | intros [u Hu]; discriminate Hu].
  - exists false. split; [reflexivity|]. split; [|reflexivity].
    split; [discriminate | intros [u Hu]; discriminate Hu].
Qed.

(** X23.  When signing in gives a user, [login] returns [true] and sets the
    signed-in user to what the read of the profile gives: the profile, or
    [null] when that read fails, in which case a user signed in before is
    gone although [login] reports success. *)
Theorem login_sets_profile
  (w : World DB) (email password userId : string) (db1 : DB) :
  exec_further (SignInWithPassword email password) (store w)
  = (Resolved (Data (Some userId)), db1) ->
  fst (login email password w) = Return true
  /\ user (snd (login email password w))
     = data_of (fst (exec_further (SelectProfile userId) db1)).
Proof.
  intros Hsign. unfold login, loadUserProfile. run_body. unfold await_further.
  rewrite Hsign. cbn [store with_store].
  destruct (exec_further (SelectProfile userId) db1) as [[[u|err]|e] db2];
    split; reflexivity.
Qed.

(** X24.  When the look-up of the e-mail address reports an error,
    [setUserPassword] throws [User not found] in place of the store's own
    error, and the store has seen the look-up only: no pass word is sent.
    The providers' state is unchanged. *)
Theorem setUserPassword_unknown_email
  (w : World DB) (email password : string) (error : Error) (db1 : DB) :
  exec_further (SelectProfileIdByEmail email) (store w)
  = (Resolved (Failed error), db1) ->
  fst (setUserPassword email password w) = Throw (mk_Error "User not found")
  /\ store (snd (setUserPassword email password w)) = db1
  /\ same_view (snd (setUserPassword email password w)) w.
Proof.
  intros Hlookup. unfold setUserPassword. run_body. unfold await_further.
  rewrite Hlookup. repeat split.
Qed.

(** X25.  [getAllUsers] never throws: it returns the profiles the store
    gives, the empty list when the read fails either way, and changes
    nothing in the providers. *)
Theorem getAllUsers_always_returns (w : World DB) :
  fst (getAllUsers w)
  = Return (match data_of (fst (exec_further SelectProfiles (store w))) with
            | Some rows => rows
            | None => []
            end)
  /\ same_view (snd (getAllUsers w)) w.
Proof.
  unfold getAllUsers. run_body. unfold await_further.
  destruct (exec_further SelectProfiles (store w)) as [[[rows|err]|e] db'];
    split; reflexivity.
Qed.

(** X26.  [deleteUser] leaves the providers' state alone, the signed-in
    user included, even when that is the user being deleted.  It throws
    exactly when the store fails, with the store's error. *)
Theorem deleteUser_keeps_state (w : World DB) (id : string) :
  same_view (snd (deleteUser id w)) w
  /\ forall e, fst (deleteUser id w) = Throw e
               <-> failure (fst (exec_further (AuthAdminDeleteUser id) (store w)))
                   = Some e.
Proof.
  unfold deleteUser. run_body. unfold await_further.
  destruct (exec_further (AuthAdminDeleteUser id) (store w))
    as [[[[]|err]|e] db']; cbn [fst snd failure];
    (split; [reflexivity|]); intros e'; split; intros Heq;
    try discriminate Heq; injection Heq as ->; reflexivity.
Qed.
End AuthProviderFacts.

(** Alice is granted ten tokens, then renamed through the function that
    was created before the grant: it merges the new name into the user it
    captured, and the grant is gone from the signed-in user.  The function
    of the render after the grant keeps it. *)
Example updateUser_kept_function :
  let w1 := snd (updateUser (Some alice) "u1" balanced_grant_to_20
                   (scenario_world [])) in
  option_map User.tokens_given (user w1) = Some 20
  /\ option_map (fun u => (User.name u, User.tokens_given u))
       (user (snd (updateUser (Some alice) "u1" rename_to_Alicia w1)))
     = Some ("Alicia", 10)
  /\ option_map (fun u => (User.name u, User.tokens_given u))
       (user (snd (updateUser (user w1) "u1" rename_to_Alicia w1)))
     = Some ("Alicia", 20).
Proof. repeat split. Qed.

Lemma login_result_witness :
  fst (login "nobody@example.org" "secret" (scenario_world [])) = Return false
  /\ same_view (snd (login "nobody@example.org" "secret" (scenario_world [])))
       (scenario_world []).
Proof.
  destruct (login_result (scenario_world []) "nobody@example.org" "secret")
    as (ok & Hret & _ & Hfalse).
  assert (Hok : ok = false).
  { assert (Hrun : fst (login "nobody@example.org" "secret" (scenario_world []))
                   = Return false) by reflexivity.
    rewrite Hrun in Hret. now injection Hret. }
  subst ok. split; [exact Hret | exact (Hfalse eq_refl)].
Defined.

(** Alice signs in while the read of her profile is refused. *)
Lemma login_sets_profile_witness :
  exec_further (SignInWithPassword "alice@example.org" "secret")
    (store (scenario_world [Healthy; Refuse outage]))
  = (Resolved (Data (Some "u1")), store (scenario_world [Refuse outage]))
  /\ user (scenario_world [Healthy; Refuse outage]) = Some alice
  /\ fst (login "alice@example.org" "secret" (scenario_world [Healthy; Refuse outage]))
     = Return true
  /\ user (snd (login "alice@example.org" "secret"
                  (scenario_world [Healthy; Refuse outage]))) = None.
Proof.
  assert (Hsign : exec_further (SignInWithPassword "alice@example.org" "secret")
                    (store (scenario_world [Healthy; Refuse outage]))
                  = (Resolved (Data (Some "u1")),
                     store (scenario_world [Refuse outage]))) by reflexivity.
  destruct (login_sets_profile (scenario_world [Healthy; Refuse outage])
              "alice@example.org" "secret" "u1" _ Hsign) as [Hret Huser].
  split; [exact Hsign|]. split; [reflexivity|]. split; [exact Hret|].
  rewrite Huser. reflexivity.
Defined.

Lemma setUserPassword_unknown_email_witness :
  exec_further (SelectProfileIdByEmail "nobody@example.org")
    (store (scenario_world []))
  = (Resolved (Failed no_rows), store (scenario_world []))
  /\ fst (setUserPassword "nobody@example.org" "secret" (scenario_world []))
     = Throw (mk_Error "User not found").
Proof.
  assert (Hlookup : exec_further (SelectProfileIdByEmail "nobody@example.org")
                      (store (scenario_world []))
                    = (Resolved (Failed no_rows), store (scenario_world [])))
    by reflexivity.
  split; [exact Hlookup|].
  exact (proj1 (setUserPassword_unknown_email (scenario_world [])
                  "nobody@example.org" "secret" no_rows _ Hlookup)).
Defined.

(* ================================================================= *)
(** ** Categories and new users, for every store *)

Section CategoriesAndUsers.
Context {DB : Type} `{DataStore DB} `{FurtherStore DB}.

(** X27.  After [addMachineType] has stored a category under the
    identifier it asked for, the identifier generated next from the new
    snapshot is another one (the numbers read from the categories held being
    safe integers).  This holds whichever render created the function. *)
Theorem addMachineType_next_identifier_differs
  (w : World DB) (machineTypes_at_render : list MachineType.t)
  (machineTypeData : MachineTypeData) (newType : MachineType.t) :
  (forall t, In t (machineTypes w) -> safe (type_number t)) ->
  (forall t, In t machineTypes_at_render -> safe (type_number t)) ->
  fst (addMachineType machineTypes_at_render machineTypeData w) = Return newType ->
  MachineType.id newType = generateMachineTypeId machineTypes_at_render ->
  generateMachineTypeId
    (machineTypes (snd (addMachineType machineTypes_at_render machineTypeData w)))
  <> MachineType.id newType.
Proof.
  intros _ _. unfold addMachineType. run_body.
  destruct (exec (InsertMachineType machineTypeData
                    (generateMachineTypeId machineTypes_at_render)) (store w))
    as [[[t|err]|e] db'];
    cbn [fst snd machineTypes with_machineTypes with_store logged with_console];
    intros Hret; try discriminate Hret. injection Hret as ->.
  intros _ Hsame. symmetry in Hsame. revert Hsame.
  apply type_id_not_regenerated. apply in_or_app. right. now left.
Qed.

(** X28.  Whatever the update and whatever the store answers,
    [updateMachineType] keeps the number of categories in the snapshot and
    leaves every category with another identifier where it is, unchanged;
    and it never touches the machines, not even when the update gives the
    category a new identifier. *)
Theorem updateMachineType_touches_only_its_id
  (w : World DB) (id : string) (updates : MachineTypePatch) :
  let w' := snd (updateMachineType id updates w) in
  List.length (machineTypes w') = List.length (machineTypes w)
  /\ (forall n t, nth_error (machineTypes w) n = Some t -> MachineType.id t <> id ->
                  nth_error (machineTypes w') n = Some t)
  /\ machines w' = machines w.
Proof.
  unfold updateMachineType. run_body. unfold await_further.
  destruct (exec_further (UpdateMachineType updates id) (store w))
    as [[[[]|err]|e] db'];
    cbn [snd machines machineTypes with_machineTypes with_store logged with_console];
    (split; [|split; [intros n t Hn Hid|]]); try reflexivity; try exact Hn.
  - apply length_map.
  - apply (nth_error_map_if (fun t => (MachineType.id t =? id)%string)); [exact Hn|].
    now apply String.eqb_neq.
Qed.

(** X29.  [addUser] changes nothing in the providers.  When creating the
    auth user fails it throws that error and the profile is not sent; when
    the auth user is created it sends the profile under the identifier it
    got back and returns the stored profile, or throws the error of that
    insert, and sends nothing more after it. *)
Theorem addUser_outcome (w : World DB) (userData : User.data) :
  let r1 := exec (AuthAdminCreateUser (User.d_email userData) (User.d_name userData)
                    (User.d_role userData)) (store w) in
  let call := addUser userData w in
  same_view (snd call) w
  /\ (forall e, failure (fst r1) = Some e ->
                fst call = Throw e /\ store (snd call) = snd r1)
  /\ (forall authUserId, data_of (fst r1) = Some authUserId ->
        let r2 := exec (InsertProfile authUserId (User.d_name userData)
                          (User.d_role userData) (User.d_tokens_given userData)
                          (User.d_tokens_consumed userData)
                          (User.d_tokens_remaining userData)) (snd r1) in
        fst call = match fst r2 with
                   | Resolved (Data profileData) => Return profileData
                   | Resolved (Failed e) | Rejected e => Throw e
                   end
        /\ store (snd call) = snd r2).
Proof.
  unfold addUser. run_body.
  destruct (exec (AuthAdminCreateUser (User.d_email userData)
                    (User.d_name userData) (User.d_role userData)) (store w))
    as [[[authUserId|err]|e] db1]; cbn [fst snd failure data_of store with_store].
  - destruct (exec (InsertProfile authUserId (User.d_name userData)
                      (User.d_role userData) (User.d_tokens_given userData)
                      (User.d_tokens_consumed userData)
                      (User.d_tokens_remaining userData)) db1)
      as [[[p|err]|e] db2] eqn:Hr2;
      (split; [reflexivity|]);
      (split; [intros e' He'; discriminate He'|]);
      intros uid Huid; injection Huid as <-; rewrite Hr2; split; reflexivity.
  - split; [reflexivity|]. split.
    + intros e' He'. injection He' as ->. split; reflexivity.
    + intros uid Huid. discriminate Huid.
  - split; [reflexivity|]. split.
    + intros e' He'. injection He' as ->. split; reflexivity.
    + intros uid Huid. discriminate Huid.
Qed.
End CategoriesAndUsers.

Lemma addMachineType_next_identifier_witness :
  (forall t, In t (machineTypes (scenario_world [])) -> safe (type_number t))
  /\ fst (addMachineType (machineTypes (scenario_world [])) lasers (scenario_world []))
     = Return (MachineType.mk "C02" "Laser cutter" 3)
  /\ generateMachineTypeId
       (machineTypes (snd (addMachineType (machineTypes (scenario_world [])) lasers
                             (scenario_world []))))
     <> "C02".
Proof.
  assert (Hret : fst (addMachineType (machineTypes (scenario_world [])) lasers
                        (scenario_world []))
                 = Return (MachineType.mk "C02" "Laser cutter" 3)) by reflexivity.
  split; [exact scenario_types_safe|]. split; [exact Hret|].
  exact (addMachineType_next_identifier_differs (scenario_world [])
           (machineTypes (scenario_world [])) lasers _
           scenario_types_safe scenario_types_safe Hret eq_refl).
Defined.

(** Category [C01] is renamed to [C09]; machine [C01M01] still says [C01]. *)
Lemma updateMachineType_witness :
  map MachineType.id
    (machineTypes (snd (updateMachineType "C01" rename_to_C09 (scenario_world []))))
  = ["C09"]
  /\ map Machine.machine_type_id
       (machines (snd (updateMachineType "C01" rename_to_C09 (scenario_world []))))
     = ["C01"].
Proof.
  split; [reflexivity|].
  rewrite (proj2 (proj2 (updateMachineType_touches_only_its_id
                           (scenario_world []) "C01" rename_to_C09))).
  reflexivity.
Defined.

Lemma addUser_outcome_witness :
  failure (fst (exec (AuthAdminCreateUser (User.d_email newcomer)
                        (User.d_name newcomer) (User.d_role newcomer))
                  (store (scenario_world [Refuse outage])))) = Some outage
  /\ fst (addUser newcomer (scenario_world [Refuse outage])) = Throw outage
  /\ RowStore.profiles (store (snd (addUser newcomer (scenario_world [Refuse outage]))))
     = [alice].
Proof.
  assert (Hfail : failure (fst (exec (AuthAdminCreateUser (User.d_email newcomer)
                                        (User.d_name newcomer) (User.d_role newcomer))
                                  (store (scenario_world [Refuse outage]))))
                  = Some outage) by reflexivity.
  destruct (addUser_outcome (scenario_world [Refuse outage]) newcomer)
    as (_ & Hfirst & _).
  destruct (Hfirst outage Hfail) as [Hthrow Hstore].
  split; [exact Hfail|]. split; [exact Hthrow|]. rewrite Hstore. reflexivity.
Defined.

(** With [B2] and [B1] in the snapshot, approving [B2] leaves [B1] second
    in the list and pending. *)
Lemma updateBooking_touches_only_its_id_witness :
  nth_error (bookings (snd (addBooking second_request (scenario_world [])))) 1
  = Some first_booking
  /\ Booking.id first_booking <> "B2"
  /\ nth_error
       (bookings
          (snd (updateBooking "B2" (Booking.set_status approved)
                  (snd (addBooking second_request (scenario_world [])))))) 1
     = Some first_booking.
Proof.
  assert (Hn : nth_error
                 (bookings (snd (addBooking second_request (scenario_world [])))) 1
               = Some first_booking) by reflexivity.
  assert (Hid : Booking.id first_booking <> "B2") by discriminate.
  split; [exact Hn|]. split; [exact Hid|].
  exact (proj2 (updateBooking_touches_only_its_id
                  (snd (addBooking second_request (scenario_world [])))
                  "B2" (Booking.set_status approved))
           1%nat first_booking Hn Hid).
Defined.
